(** * The Gantt row of the DAG details view (dag/details/gantt/Row.tsx)

    A shallow embedding of the [Row] component: the values it computes
    from its props (durations, ratios, pixel widths, the offset of the
    bar), the element tree it returns, and the failure-history request
    its hook issues; followed by the properties of that layout. *)

From Stdlib Require Import ZArith QArith Qcanon String Ascii List Bool Lia.
Import ListNotations.

Set Warnings "-register-all".

Local Open Scope string_scope.

(** ** The JavaScript values [Row] computes with *)

Module JS.

(** A TypeScript [A | null | undefined]. *)
Inductive nullable (A : Type) : Type :=
| undefined : nullable A
| null : nullable A
| val (a : A) : nullable A.

Arguments undefined {A}.
Arguments null {A}.
Arguments val {A} a.

(** [!!s] for a string-or-nothing: only a non-empty string is truthy. *)
Definition truthy (s : nullable string) : bool :=
  match s with
  | val v => negb (v =? "")
  | _ => false
  end.

(** [a || b] on strings-or-nothing. *)
Definition or_else (a b : nullable string) : nullable string :=
  if truthy a then a else b.

(** [a || d] where [d] is a string: the result is a string. *)
Definition or_string (a : nullable string) (d : string) : string :=
  match a with
  | val v => if v =? "" then d else v
  | _ => d
  end.

(** [a === b] on strings-or-nothing: [null] and [undefined] differ. *)
Definition strict_eq (a b : nullable string) : bool :=
  match a, b with
  | undefined, undefined => true
  | null, null => true
  | val x, val y => x =? y
  | _, _ => false
  end.

(** [a < b] on two strings: code units compared left to right, a proper
    prefix first. *)
Definition str_lt (a b : string) : bool := String.ltb a b.

(** [xs.includes(x)] on an array of strings. *)
Definition includes (xs : list string) (x : string) : bool :=
  existsb (String.eqb x) xs.

(** A template-literal rendering [`${s}`] of a string-or-nothing. *)
Definition to_string (s : nullable string) : string :=
  match s with
  | undefined => "undefined"
  | null => "null"
  | val v => v
  end.

(** Numbers.  A finite number is an exact rational: the rounding of
    binary64 arithmetic is not modelled, its special values are.  There
    is no negative zero; every divisor in [Row] is a difference of two
    instants (or the literal [0]), which is never [-0]. *)
Inductive number : Type :=
| Fin (q : Qc)
| PosInf
| NegInf
| NaN.

(** An integer as a rational, and as a number. *)
Definition Qc_of_Z (z : Z) : Qc := Q2Qc (inject_Z z).

Definition of_Z (z : Z) : number := Fin (Qc_of_Z z).

Definition is_finite (x : number) : bool :=
  match x with Fin _ => true | _ => false end.

(** The sign of a number that is not [NaN]: [Lt] negative, [Eq] zero,
    [Gt] positive. *)
Definition sign (x : number) : comparison :=
  match x with
  | Fin q => (q ?= Qc_of_Z 0)%Qc
  | PosInf => Gt
  | NegInf => Lt
  | NaN => Eq
  end.

Definition sign_mul (a b : comparison) : comparison :=
  match a, b with
  | Eq, _ | _, Eq => Eq
  | Gt, Gt | Lt, Lt => Gt
  | _, _ => Lt
  end.

(** The infinity of a sign; no sign (a zero factor) gives [NaN]. *)
Definition signed_inf (s : comparison) : number :=
  match s with
  | Gt => PosInf
  | Lt => NegInf
  | Eq => NaN
  end.

(** [x * y]. *)
Definition mul (x y : number) : number :=
  match x, y with
  | NaN, _ | _, NaN => NaN
  | Fin a, Fin b => Fin (a * b)%Qc
  | _, _ => signed_inf (sign_mul (sign x) (sign y))
  end.

(** [x / y]: a finite number over zero is the infinity of its sign,
    [0 / 0] is [NaN]. *)
Definition div (x y : number) : number :=
  match x, y with
  | NaN, _ | _, NaN => NaN
  | Fin a, Fin b =>
      match (b ?= Qc_of_Z 0)%Qc with
      | Eq => signed_inf (sign x)
      | _ => Fin (a / b)%Qc
      end
  | Fin _, _ => Fin (Qc_of_Z 0)
  | _, Fin b =>
      match (b ?= Qc_of_Z 0)%Qc with
      | Lt => signed_inf (sign_mul (sign x) Lt)
      | _ => x
      end
  | _, _ => NaN
  end.

(** [x + y]. *)
Definition add (x y : number) : number :=
  match x, y with
  | NaN, _ | _, NaN => NaN
  | Fin a, Fin b => Fin (a + b)%Qc
  | PosInf, NegInf | NegInf, PosInf => NaN
  | PosInf, _ | _, PosInf => PosInf
  | NegInf, _ | _, NegInf => NegInf
  end.

(** [x < y]: false as soon as one side is [NaN]. *)
Definition lt (x y : number) : bool :=
  match x, y with
  | NaN, _ | _, NaN => false
  | Fin a, Fin b => match (a ?= b)%Qc with Lt => true | _ => false end
  | NegInf, NegInf => false
  | NegInf, _ => true
  | _, NegInf => false
  | PosInf, _ => false
  | _, PosInf => true
  end.

(** [x <= y]. *)
Definition le (x y : number) : bool :=
  match x, y with
  | NaN, _ | _, NaN => false
  | Fin a, Fin b => match (a ?= b)%Qc with Gt => false | _ => true end
  | NegInf, _ => true
  | _, PosInf => true
  | _, _ => false
  end.

(** [x > y] is [y < x]. *)
Definition gt (x y : number) : bool := lt y x.

(** [!!x] for a number-or-nothing: [0] and [NaN] are falsy. *)
Definition truthy_number (x : nullable number) : bool :=
  match x with
  | val (Fin q) => match (q ?= Qc_of_Z 0)%Qc with Eq => false | _ => true end
  | val NaN => false
  | val _ => true
  | _ => false
  end.

End JS.

Export JS.

(** ** Data model (src/types): read-only snapshots handed to a render *)

Module TaskInstance.
Record t : Type := {
  runId : string;
  taskId : string;
  state : nullable string;
  startDate : nullable string;
  endDate : nullable string;
  queuedDttm : nullable string;
  tryNumber : nullable number
}.
End TaskInstance.

Module TaskFail.
Record t : Type := {
  taskId : string;
  startDate : nullable string;
  endDate : nullable string
}.
End TaskFail.

(** A task, its optional group members and its instances, one per run. *)
Inductive Task : Type :=
  mkTask (id : nullable string)
         (children : option (list Task))
         (instances : list TaskInstance.t).

Definition id (t : Task) : nullable string :=
  match t with mkTask i _ _ => i end.

Definition children (t : Task) : option (list Task) :=
  match t with mkTask _ c _ => c end.

Definition instances (t : Task) : list TaskInstance.t :=
  match t with mkTask _ _ l => l end.

(** The ambient selection ([useSelection().selected]). *)
Module Selection.
Record t : Type := {
  runId : nullable string;
  taskId : nullable string
}.
End Selection.

(** The argument of the failure-history hook [useTaskFails]. *)
Module TaskFailsQuery.
Record t : Type := {
  taskId : nullable string;
  runId : nullable string;
  enabled : bool
}.
End TaskFailsQuery.

(** ** The element tree a row returns

    Lengths are kept as numbers of pixels (the source prints them as
    [`${n}px`]); props that are the same constant on every render
    (position, cursor, tooltip placement and delay) are left out. *)

Record SimpleStatus : Type := {
  ss_state : nullable string;
  ss_width : number;
  ss_borderRightRadius : option Z;
  ss_borderLeftRadius : option Z;
  ss_opacity : option Q
}.

(** The [Flex] bar inside the tooltip: an optional queued segment followed
    by the segment of the instance; [flex_onClick] is the pair handed to
    [onSelect] when the bar is clicked. *)
Record Flex : Type := {
  flex_width : number;
  flex_left : number;
  flex_onClick : string * string;
  flex_queued : option SimpleStatus;
  flex_main : SimpleStatus
}.

(** [<Tooltip label={<GanttTooltip task instance />}>]. *)
Record Tooltip : Type := {
  tooltip_label : Task * TaskInstance.t;
  tooltip_bar : Flex
}.

(** [<TaskFail key taskFail ganttStartDate ganttWidth runDuration />]. *)
Record TaskFailMarker : Type := {
  marker_key : string;
  marker_taskFail : TaskFail.t;
  marker_ganttStartDate : nullable string;
  marker_ganttWidth : number;
  marker_runDuration : number
}.

(** The frame of the row together with what is drawn on it. *)
Record Box : Type := {
  box_borderBottomColor : string;
  box_bg : string;
  box_width : number;
  box_height : number;
  box_bar : option Tooltip;
  box_fails : list TaskFailMarker
}.

(** [<div> <Box/> {child rows} </div>]; a [false] child renders nothing. *)
Inductive Element : Type :=
  RowDiv (box : Box) (rows : list Element).

Definition box (e : Element) : Box :=
  match e with RowDiv b _ => b end.

Definition rows (e : Element) : list Element :=
  match e with RowDiv _ r => r end.

(** [instance?.field] for a string-or-nothing field. *)
Definition opt_field (instance : option TaskInstance.t)
    (field : TaskInstance.t -> nullable string) : nullable string :=
  match instance with
  | Some ti => field ti
  | None => undefined
  end.

(** ** Inputs of the worked examples *)

Module Examples.

Local Open Scope Z_scope.

(** A clock for the examples: it reads [YYYY-MM-DDTHH:MM:SS+00:00] as the
    milliseconds since 1970-01-01T00:00:00 UTC. *)
Definition digit (c : ascii) : Z := Z.of_N (N_of_ascii c) - 48.

Fixpoint digits (s : string) (acc : Z) : Z :=
  match s with
  | EmptyString => acc
  | String c r => digits r (10 * acc + digit c)
  end.

Definition field (s : string) (from len : nat) : Z :=
  digits (substring from len s) 0.

(** Days from 1970-01-01 to a date of the Gregorian calendar. *)
Definition daysFromCivil (y m d : Z) : Z :=
  let y' := if m <=? 2 then y - 1 else y in
  let era := y' / 400 in
  let yoe := y' - era * 400 in
  let doy := (153 * ((m + 9) mod 12) + 2) / 5 + d - 1 in
  let doe := yoe * 365 + yoe / 4 - yoe / 100 + doy in
  era * 146097 + doe - 719468.

Definition utcMillis (s : string) : Z :=
  let days := daysFromCivil (field s 0 4) (field s 5 2) (field s 8 2) in
  (((days * 24 + field s 11 2) * 60 + field s 14 2) * 60 + field s 17 2)
  * 1000.

(** The instant T0 of the examples and the instants n seconds after it. *)
Definition T0 : string := "2024-03-01T00:00:00+00:00".
Definition T0_2s : string := "2024-03-01T00:00:02+00:00".
Definition T0_5s : string := "2024-03-01T00:00:05+00:00".
Definition T0_10s : string := "2024-03-01T00:00:10+00:00".
Definition T0_20s : string := "2024-03-01T00:00:20+00:00".
Definition T0_30s : string := "2024-03-01T00:00:30+00:00".
Definition T0_100s : string := "2024-03-01T00:01:40+00:00".

(** The run on display, with no task selected. *)
Definition run1 : Selection.t :=
  {| Selection.runId := val "run_1"; Selection.taskId := null |}.

(** A data layer that has loaded nothing. *)
Definition nothingLoaded (taskId runId : nullable string)
    : option (list TaskFail.t) := None.

Definition instanceOf (state start end_ queued : nullable string)
    (try : nullable number) : TaskInstance.t :=
  {| TaskInstance.runId := "run_1";
     TaskInstance.taskId := "extract";
     TaskInstance.state := state;
     TaskInstance.startDate := start;
     TaskInstance.endDate := end_;
     TaskInstance.queuedDttm := queued;
     TaskInstance.tryNumber := try |}.

Definition leaf (ti : TaskInstance.t) : Task :=
  mkTask (val "extract") None [ti].

(** The instance of the spec's example: it runs from T0+10s to T0+30s and
    has no queued timestamp. *)
Definition ranTenToThirty : TaskInstance.t :=
  instanceOf (val "success") (val T0_10s) (val T0_30s) null (val (of_Z 1)).

(** An instance still waiting in the queue: queued at T0+2s, not started. *)
Definition queuedWaiting : TaskInstance.t :=
  instanceOf (val "queued") null null (val T0_2s) (val (of_Z 1)).

(** An instance that started and ended at T0+10s. *)
Definition instant : TaskInstance.t :=
  instanceOf (val "success") (val T0_10s) (val T0_10s) null (val (of_Z 1)).

(** An instance queued at T0+2s that ran from T0+5s to T0+30s. *)
Definition queuedThenRan : TaskInstance.t :=
  instanceOf (val "success") (val T0_5s) (val T0_30s) (val T0_2s)
             (val (of_Z 1)).

(** An instance that ran from T0 to T0+10s. *)
Definition ranFromT0 : TaskInstance.t :=
  instanceOf (val "success") (val T0) (val T0_10s) null (val (of_Z 1)).

(** A second try, running from T0+20s to T0+30s. *)
Definition retried : TaskInstance.t :=
  instanceOf (val "success") (val T0_20s) (val T0_30s) null (val (of_Z 2)).

(** An instance of a run that is not on display. *)
Definition ofAnotherRun : TaskInstance.t :=
  {| TaskInstance.runId := "run_0";
     TaskInstance.taskId := "extract";
     TaskInstance.state := val "failed";
     TaskInstance.startDate := val T0_10s;
     TaskInstance.endDate := val T0_30s;
     TaskInstance.queuedDttm := null;
     TaskInstance.tryNumber := val (of_Z 3) |}.

Definition failAt (start : string) : TaskFail.t :=
  {| TaskFail.taskId := "extract";
     TaskFail.startDate := val start;
     TaskFail.endDate := val start |}.

(** A failure history: a try at the very start of the window, one at
    T0+10s, and the record of the try at T0+20s now on display. *)
Definition earlierFails : list TaskFail.t :=
  [failAt T0; failAt T0_10s; failAt T0_20s].

(** A data layer that has loaded [earlierFails] for every query. *)
Definition failsLoaded (taskId runId : nullable string)
    : option (list TaskFail.t) := Some earlierFails.

(** A group without an id, with one member. *)
Definition anonymousGroup : Task :=
  mkTask null (Some [leaf ranTenToThirty]) [].

(** The clock of the examples: an hour after T0. *)
Definition anHourLater : Z := utcMillis "2024-03-01T01:00:00+00:00".

(** What the clock of the examples parses: strings as long as T0. *)
Definition isoShaped (s : string) : bool :=
  Nat.eqb (String.length s) (String.length T0).

(** A failure record that has no start. *)
Definition failWithoutStart : TaskFail.t :=
  {| TaskFail.taskId := "extract";
     TaskFail.startDate := undefined;
     TaskFail.endDate := undefined |}.

(** A data layer that has loaded that one record for every query. *)
Definition strayLoaded (taskId runId : nullable string)
    : option (list TaskFail.t) := Some [failWithoutStart].

(** A selection with no run and no task. *)
Definition nothingSelected : Selection.t :=
  {| Selection.runId := null; Selection.taskId := null |}.

(** A group with two members, each with an instance of the run; the
    group itself has the instance of the second try. *)
Definition pipeline : Task :=
  mkTask (val "pipeline")
         (Some [leaf retried; leaf ranTenToThirty])
         [retried].

End Examples.

(** ** The component *)

Section Gantt.

(** What a render reads from outside its props: the ambient selection,
    the instant a timestamp string denotes (milliseconds since the
    epoch, as [moment] parses it), the failure history the data layer
    holds for a task and run ([None] while it is not loaded), and the
    [boxSize] constant of StatusBox; for [moment], the reading of the
    clock during the render (milliseconds since the epoch) and which
    strings it can parse as a date. *)
Variable selected : Selection.t.
Variable millis : string -> Z.
Variable taskFailsData :
  nullable string -> nullable string -> option (list TaskFail.t).
Variable boxSize : Z.
Variable clock : Z.
Variable parses : string -> bool.

(** Modelled from the spec: [getDuration] of src/datetime_utils, which
    is not among the sources.  "duration(a, b) = b - a in milliseconds
    if both defined, else 0. Never fails; absent timestamps degrade to
    zero-length intervals". *)
Definition getDuration (a b : nullable string) : number :=
  match a, b with
  | val s, val e => of_Z (millis e - millis s)
  | _, _ => of_Z 0
  end.

(** Modelled from the spec: the hook [useTaskFails] of src/api, which is
    not among the sources.  "input { taskId, runId, enabled }; output:
    list of TaskFail or not-yet-loaded sentinel; must not be invoked
    when enabled is false".  The second component lists the requests
    the hook lets through to the data layer. *)
Definition useTaskFails (q : TaskFailsQuery.t)
    : option (list TaskFail.t) * list TaskFailsQuery.t :=
  if TaskFailsQuery.enabled q
  then (taskFailsData (TaskFailsQuery.taskId q) (TaskFailsQuery.runId q),
        [q])
  else (None, []).

(** [moment(x)], a call into the moment library, which is not part of
    the repository, as the library documents it: the instant [x] stands
    for, or [None] for an invalid date.  [moment(undefined)] is the
    current time; [moment(null)], [moment("")] and a string that does not
    parse are invalid dates. *)
Definition moment (x : nullable string) : option Z :=
  match x with
  | undefined => Some clock
  | null => None
  | val s => if negb (s =? "") && parses s then Some (millis s) else None
  end.

(** [moment(a).isAfter(b)]: both [moment(a)] and [moment(b)] are valid and
    the first is strictly later; false as soon as one is invalid. *)
Definition isAfter (a b : nullable string) : bool :=
  match moment a, moment b with
  | Some x, Some y => (y <? x)%Z
  | _, _ => false
  end.

(** line 43: [ganttWidth = 500]. *)
Definition defaultWidth (ganttWidth : option number) : number :=
  match ganttWidth with
  | Some w => w
  | None => of_Z 500
  end.

(** line 57. *)
Definition findInstance (task : Task) : option TaskInstance.t :=
  find (fun ti => strict_eq (val (TaskInstance.runId ti))
                            (Selection.runId selected))
       (instances task).

(** line 58. *)
Definition isSelected (instance : option TaskInstance.t) : bool :=
  strict_eq (Selection.taskId selected)
            (opt_field instance (fun ti => val (TaskInstance.taskId ti))).

(** lines 59-63.  The comparison is reached with two non-empty strings
    only; it is the comparison of the strings, not of the instants. *)
Definition hasValidQueuedDttm (instance : option TaskInstance.t) : bool :=
  truthy (opt_field instance TaskInstance.queuedDttm)
  && (if truthy (opt_field instance TaskInstance.startDate)
         && truthy (opt_field instance TaskInstance.queuedDttm)
      then
        match opt_field instance TaskInstance.queuedDttm,
              opt_field instance TaskInstance.startDate with
        | val q, val s => str_lt q s
        | _, _ => false
        end
      else true).

(** line 64. *)
Definition isOpen (openGroupIds : list string) (task : Task) : bool :=
  includes openGroupIds (or_string (id task) "").

(** line 69: the [enabled] flag of the failure-history query. *)
Definition fetchEnabled (instance : option TaskInstance.t) (task : Task)
    : bool :=
  let tryNumber :=
    match instance with
    | Some ti => TaskInstance.tryNumber ti
    | None => undefined
    end in
  (truthy_number tryNumber
   && match tryNumber with
      | val n => gt n (of_Z 1)
      | _ => false
      end)
  && truthy (id task).

(** lines 66-70: the query handed to the hook. *)
Definition taskFailsQuery (instance : option TaskInstance.t) (task : Task)
    : TaskFailsQuery.t :=
  {| TaskFailsQuery.taskId := or_else (id task) undefined;
     TaskFailsQuery.runId := or_else (Selection.runId selected) undefined;
     TaskFailsQuery.enabled := fetchEnabled instance task |}.

(** line 73. *)
Definition taskDuration (instance : option TaskInstance.t) : number :=
  getDuration (opt_field instance TaskInstance.startDate)
              (opt_field instance TaskInstance.endDate).

(** lines 74-76. *)
Definition queuedDuration (instance : option TaskInstance.t) : number :=
  if hasValidQueuedDttm instance
  then getDuration (opt_field instance TaskInstance.queuedDttm)
                   (opt_field instance TaskInstance.startDate)
  else of_Z 0.

(** lines 77-79. *)
Definition taskStartOffset (ganttStartDate : nullable string)
    (instance : option TaskInstance.t) : number :=
  if hasValidQueuedDttm instance
  then getDuration ganttStartDate
         (or_else (opt_field instance TaskInstance.queuedDttm)
                  (opt_field instance TaskInstance.startDate))
  else getDuration ganttStartDate
         (opt_field instance TaskInstance.startDate).

(** lines 82-84: each duration as a share of the run. *)
Definition percent (duration runDuration : number) : number :=
  div duration runDuration.

(** lines 88-89: the width of the instance's segment, at least 5px. *)
Definition barWidth (ganttWidth : number)
    (ganttStartDate ganttEndDate : nullable string)
    (instance : option TaskInstance.t) : number :=
  let runDuration := getDuration ganttStartDate ganttEndDate in
  let taskDurationPercent := percent (taskDuration instance) runDuration in
  let width := mul ganttWidth taskDurationPercent in
  if lt width (of_Z 5) then of_Z 5 else width.

(** lines 90-91: the width of the queued segment. *)
Definition queuedBarWidth (ganttWidth : number)
    (ganttStartDate ganttEndDate : nullable string)
    (instance : option TaskInstance.t) : number :=
  let runDuration := getDuration ganttStartDate ganttEndDate in
  let queuedDurationPercent :=
    percent (queuedDuration instance) runDuration in
  let queuedWidth :=
    if hasValidQueuedDttm instance
    then mul ganttWidth queuedDurationPercent
    else of_Z 0 in
  if hasValidQueuedDttm instance && lt queuedWidth (of_Z 5)
  then of_Z 5
  else queuedWidth.

(** line 92: the distance of the bar from the left edge of the row. *)
Definition offsetMargin (ganttWidth : number)
    (ganttStartDate ganttEndDate : nullable string)
    (instance : option TaskInstance.t) : number :=
  let runDuration := getDuration ganttStartDate ganttEndDate in
  let taskStartOffsetPercent :=
    percent (taskStartOffset ganttStartDate instance) runDuration in
  mul taskStartOffsetPercent ganttWidth.

(** lines 126 and 139: the queued segment is drawn apart from the
    segment of the instance. *)
Definition showsQueued (ti : TaskInstance.t) : bool :=
  negb (strict_eq (TaskInstance.state ti) (val "queued"))
  && hasValidQueuedDttm (Some ti).

(** lines 104-146: the tooltip and the bar of a resolved instance. *)
Definition instanceBar (ganttWidth : number)
    (ganttStartDate ganttEndDate : nullable string)
    (task : Task) (ti : TaskInstance.t) : Tooltip :=
  let width := barWidth ganttWidth ganttStartDate ganttEndDate (Some ti) in
  let queuedWidth :=
    queuedBarWidth ganttWidth ganttStartDate ganttEndDate (Some ti) in
  {| tooltip_label := (task, ti);
     tooltip_bar :=
       {| flex_width := add width queuedWidth;
          flex_left :=
            offsetMargin ganttWidth ganttStartDate ganttEndDate (Some ti);
          flex_onClick := (TaskInstance.runId ti, TaskInstance.taskId ti);
          flex_queued :=
            if showsQueued ti
            then Some {| ss_state := val "queued";
                         ss_width := queuedWidth;
                         ss_borderRightRadius := Some 0%Z;
                         ss_borderLeftRadius := None;
                         ss_opacity := Some (6 # 10)%Q |}
            else None;
          flex_main :=
            {| ss_state := TaskInstance.state ti;
               ss_width := width;
               ss_borderRightRadius := None;
               ss_borderLeftRadius :=
                 if showsQueued ti then Some 0%Z else None;
               ss_opacity := None |} |} |}.

(** lines 148-163: the markers of the earlier failed tries. *)
Definition failMarkers (ganttWidth : number)
    (ganttStartDate ganttEndDate : nullable string)
    (instance : option TaskInstance.t)
    (taskFails : option (list TaskFail.t)) : list TaskFailMarker :=
  map (fun taskFail =>
         {| marker_key :=
              TaskFail.taskId taskFail ++ "-"
              ++ to_string (TaskFail.startDate taskFail);
            marker_taskFail := taskFail;
            marker_ganttStartDate := ganttStartDate;
            marker_ganttWidth := ganttWidth;
            marker_runDuration := getDuration ganttStartDate ganttEndDate |})
      (filter (fun tf =>
                 negb (strict_eq (TaskFail.startDate tf)
                         (opt_field instance TaskInstance.startDate))
                 && isAfter (TaskFail.startDate tf) ganttStartDate)
              (match taskFails with
               | Some l => l
               | None => []
               end)).

(** lines 96-164: the frame of the row and what is drawn on it. *)
Definition rowBox (ganttWidth : number) (openGroupIds : list string)
    (task : Task) (ganttStartDate ganttEndDate : nullable string)
    (taskFails : option (list TaskFail.t)) : Box :=
  let instance := findInstance task in
  {| box_borderBottomColor :=
       if (match children task with Some _ => true | None => false end)
          && isOpen openGroupIds task
       then "gray.400" else "gray.200";
     box_bg := if isSelected instance then "blue.100" else "inherit";
     box_width := ganttWidth;
     box_height := of_Z (boxSize + 9);
     box_bar :=
       match instance with
       | Some ti =>
           Some (instanceBar ganttWidth ganttStartDate ganttEndDate task ti)
       | None => None
       end;
     box_fails :=
       failMarkers ganttWidth ganttStartDate ganttEndDate instance
                   taskFails |}.

(** lines 42-179.  A render returns the element of the row and the
    failure-history requests issued while rendering it and the rows
    below it, in rendering order. *)
Fixpoint Row (ganttWidth : option number) (openGroupIds : list string)
    (task : Task) (ganttStartDate ganttEndDate : nullable string)
    {struct task} : Element * list TaskFailsQuery.t :=
  let ganttWidth := defaultWidth ganttWidth in
  let instance := findInstance task in
  let (taskFails, requests) :=
    useTaskFails (taskFailsQuery instance task) in
  let childRows :=
    match task with
    | mkTask _ (Some cs) _ =>
        if isOpen openGroupIds task
        then map (fun c => Row (Some ganttWidth) openGroupIds c
                               ganttStartDate ganttEndDate) cs
        else []
    | mkTask _ None _ => []
    end in
  (RowDiv (rowBox ganttWidth openGroupIds task ganttStartDate ganttEndDate
                  taskFails)
          (map fst childRows),
   (requests ++ concat (map snd childRows))%list).

Definition element (r : Element * list TaskFailsQuery.t) : Element :=
  fst r.

Definition fetches (r : Element * list TaskFailsQuery.t)
    : list TaskFailsQuery.t :=
  snd r.

(** The children a row descends into: those of an open group. *)
Definition openChildren (openGroupIds : list string) (task : Task)
    : list Task :=
  match children task with
  | Some cs => if isOpen openGroupIds task then cs else []
  | None => []
  end.

(** The tasks a render shows: the task itself, then, for an open group,
    what its children show, in the order of [task.children]. *)
Fixpoint visibleTasks (openGroupIds : list string) (task : Task)
    {struct task} : list Task :=
  task
  :: match task with
     | mkTask _ (Some cs) _ =>
         if isOpen openGroupIds task
         then flat_map (visibleTasks openGroupIds) cs
         else []
     | mkTask _ None _ => []
     end.

(** All the rows of an element: the row itself, then the rows below it,
    depth first. *)
Fixpoint allRows (e : Element) : list Element :=
  match e with
  | RowDiv _ below => e :: flat_map allRows below
  end.

(** The query a row hands to the hook, when it is enabled. *)
Definition ownRequest (t : Task) : list TaskFailsQuery.t :=
  if fetchEnabled (findInstance t) t
  then [taskFailsQuery (findInstance t) t]
  else [].

(** ** Arithmetic of the numbers *)

Lemma Qc_of_Z_compare (a b : Z) :
  (Qc_of_Z a ?= Qc_of_Z b)%Qc = (a ?= b)%Z.
Proof.
  unfold Qc_of_Z, Qccompare, Q2Qc; cbn [this].
  rewrite <- Qred_compare.
  unfold Qcompare; cbn.
  now rewrite !Z.mul_1_r.
Qed.

Lemma Qc_of_Z_lt (a b : Z) : (a < b)%Z -> (Qc_of_Z a < Qc_of_Z b)%Qc.
Proof.
  intros H. apply Qclt_alt. now rewrite Qc_of_Z_compare.
Qed.

Lemma Qc_of_Z_pos (a : Z) : (0 < a)%Z -> (Qc_of_Z 0 < Qc_of_Z a)%Qc.
Proof. apply Qc_of_Z_lt. Qed.

Lemma mul_comm (x y : number) : mul x y = mul y x.
Proof.
  destruct x as [a| | |], y as [b| | |]; cbn; try reflexivity;
    first [ now rewrite Qcmult_comm
          | now destruct (a ?= Qc_of_Z 0)%Qc
          | now destruct (b ?= Qc_of_Z 0)%Qc ].
Qed.

Lemma div_Fin (a b : Qc) :
  b <> Qc_of_Z 0 -> div (Fin a) (Fin b) = Fin (a / b)%Qc.
Proof.
  intros Hb. cbn.
  destruct (b ?= Qc_of_Z 0)%Qc eqn:E; try reflexivity.
  apply Qceq_alt in E. contradiction.
Qed.

Lemma div_zero_not_finite (x : number) :
  is_finite (div x (of_Z 0)) = false.
Proof.
  destruct x as [a| | |]; cbn; try reflexivity.
  now destruct (a ?= Qc_of_Z 0)%Qc.
Qed.

Lemma mul_not_finite_l (x y : number) :
  is_finite x = false -> is_finite (mul x y) = false.
Proof.
  destruct x as [a| | |], y as [b| | |]; cbn; try easy;
    now destruct (b ?= Qc_of_Z 0)%Qc.
Qed.

Lemma mul_not_finite_r (x y : number) :
  is_finite y = false -> is_finite (mul x y) = false.
Proof.
  intros H. rewrite mul_comm. now apply mul_not_finite_l.
Qed.

Lemma lt_Fin (a b : Qc) : lt (Fin a) (Fin b) = true <-> (a < b)%Qc.
Proof.
  cbn. rewrite Qclt_alt. destruct (a ?= b)%Qc; easy.
Qed.

Lemma lt_Fin_false (a b : Qc) : lt (Fin a) (Fin b) = false <-> (b <= a)%Qc.
Proof.
  split; intros H.
  - apply Qcnot_lt_le. intros L. apply lt_Fin in L. congruence.
  - destruct (lt (Fin a) (Fin b)) eqn:E; [|reflexivity].
    apply lt_Fin in E. now apply Qcle_not_lt in H.
Qed.

Lemma le_Fin (a b : Qc) : le (Fin a) (Fin b) = true <-> (a <= b)%Qc.
Proof.
  cbn. rewrite Qcle_alt. destruct (a ?= b)%Qc; easy.
Qed.

(** ** Properties of a render *)

(** What a render returns, one level unfolded: the frame of the row above
    the elements of the rows of an open group's members. *)
Lemma Row_element (ganttWidth : option number) (openGroupIds : list string)
    (task : Task) (ganttStartDate ganttEndDate : nullable string) :
  element (Row ganttWidth openGroupIds task ganttStartDate ganttEndDate)
  = RowDiv
      (rowBox (defaultWidth ganttWidth) openGroupIds
              task ganttStartDate ganttEndDate
              (fst (useTaskFails
                      (taskFailsQuery (findInstance task) task))))
      (map (fun c => element (Row (Some (defaultWidth ganttWidth))
                                  openGroupIds c ganttStartDate ganttEndDate))
           (openChildren openGroupIds task)).
Proof.
  destruct task as [i [cs|] l]; cbn [Row];
    destruct (useTaskFails _) as [taskFails requests]; cbn [element fst];
    unfold openChildren; cbn [children]; try reflexivity.
  destruct (isOpen openGroupIds _); cbn [map]; [|reflexivity].
  now rewrite map_map.
Qed.

(** The requests of a render: the row's own, then those of the rows below. *)
Lemma Row_fetches (ganttWidth : option number) (openGroupIds : list string)
    (task : Task) (ganttStartDate ganttEndDate : nullable string) :
  fetches (Row ganttWidth openGroupIds task ganttStartDate ganttEndDate)
  = (snd (useTaskFails (taskFailsQuery (findInstance task) task))
     ++ concat
          (map (fun c => fetches (Row (Some (defaultWidth ganttWidth))
                                      openGroupIds c ganttStartDate
                                      ganttEndDate))
               (openChildren openGroupIds task)))%list.
Proof.
  destruct task as [i [cs|] l]; cbn [Row];
    destruct (useTaskFails _) as [taskFails requests]; cbn [fetches snd];
    unfold openChildren; cbn [children]; try reflexivity.
  destruct (isOpen openGroupIds _); cbn [map]; [|reflexivity].
  now rewrite map_map.
Qed.

(** The bar of a row is that of the instance of the run on display. *)
Lemma Row_bar (ganttWidth : option number) (openGroupIds : list string)
    (task : Task) (ganttStartDate ganttEndDate : nullable string) :
  box_bar (box (element (Row ganttWidth openGroupIds task ganttStartDate
                             ganttEndDate)))
  = option_map (instanceBar (defaultWidth ganttWidth) ganttStartDate
                            ganttEndDate task)
               (findInstance task).
Proof.
  rewrite Row_element. cbn [box rowBox box_bar].
  now destruct (findInstance task).
Qed.

(** Opens a goal about the bar of the instance [Hi] finds: the bar is
    [instanceBar], laid out field by field. *)
Ltac bar_of Hi :=
  rewrite Row_bar, Hi; cbn [option_map];
  eexists; split; [reflexivity|];
  unfold instanceBar;
  cbn [tooltip_bar flex_left flex_width flex_queued flex_main ss_width].

(** A valid queued timestamp is a non-empty string, and it is the left end
    of the bar. *)
Lemma hasValidQueuedDttm_anchor (ti : TaskInstance.t) :
  hasValidQueuedDttm (Some ti) = true ->
  or_else (TaskInstance.queuedDttm ti) (TaskInstance.startDate ti)
  = val (to_string (TaskInstance.queuedDttm ti)).
Proof.
  unfold hasValidQueuedDttm, or_else; cbn [opt_field].
  destruct (TaskInstance.queuedDttm ti) as [| |q]; cbn; try discriminate.
  now destruct (q =? "").
Qed.

(** The left end of the bar: the queued timestamp when it is valid, the
    start otherwise. *)
Lemma taskStartOffset_val (g0 s : string) (ti : TaskInstance.t) :
  TaskInstance.startDate ti = val s ->
  taskStartOffset (val g0) (Some ti)
  = of_Z (millis (if hasValidQueuedDttm (Some ti)
                  then to_string (TaskInstance.queuedDttm ti) else s)
          - millis g0).
Proof.
  intros Hs. unfold taskStartOffset.
  destruct (hasValidQueuedDttm (Some ti)) eqn:Hq; cbn [opt_field].
  - now rewrite (hasValidQueuedDttm_anchor ti Hq).
  - now rewrite Hs.
Qed.

(** C1.  For an instance of the run on display whose start and end are
    defined, under a window of positive length, the bar is drawn with its
    left edge at ganttWidth * (taskStartOffset / runDuration) and its own
    segment ganttWidth * (taskDuration / runDuration) wide, or 5 when that
    is less than 5.  Durations are in milliseconds; the offset is counted
    from the start of the window to the queued timestamp when that one is
    valid and to the start otherwise. *)
Theorem C1_proportional_geometry
    (ganttWidth : option number) (openGroupIds : list string)
    (task : Task) (ti : TaskInstance.t) (g0 g1 s e : string) :
  findInstance task = Some ti ->
  TaskInstance.startDate ti = val s ->
  TaskInstance.endDate ti = val e ->
  (millis g0 < millis g1)%Z ->
  let runMs := Qc_of_Z (millis g1 - millis g0) in
  let taskMs := Qc_of_Z (millis e - millis s) in
  let offsetMs :=
    Qc_of_Z (millis (if hasValidQueuedDttm (Some ti)
                     then to_string (TaskInstance.queuedDttm ti) else s)
             - millis g0) in
  let proportional :=
    mul (defaultWidth ganttWidth) (Fin (taskMs / runMs)%Qc) in
  exists bar : Tooltip,
    box_bar (box (element (Row ganttWidth openGroupIds task
                               (val g0) (val g1)))) = Some bar
    /\ flex_left (tooltip_bar bar)
       = mul (defaultWidth ganttWidth) (Fin (offsetMs / runMs)%Qc)
    /\ ((lt proportional (of_Z 5) = true
         /\ ss_width (flex_main (tooltip_bar bar)) = of_Z 5)
        \/ (lt proportional (of_Z 5) = false
            /\ ss_width (flex_main (tooltip_bar bar)) = proportional)).
Proof.
  intros Hi Hs He Hwin runMs taskMs offsetMs proportional.
  assert (Hrun : runMs <> Qc_of_Z 0).
  { apply not_eq_sym, Qclt_not_eq, Qc_of_Z_pos. lia. }
  bar_of Hi. split.
  - unfold offsetMargin, percent.
    rewrite (taskStartOffset_val g0 s ti Hs).
    unfold getDuration, of_Z. fold runMs offsetMs.
    rewrite (div_Fin _ _ Hrun). apply mul_comm.
  - unfold barWidth, percent, taskDuration.
    cbn [opt_field]. rewrite Hs, He.
    unfold getDuration, of_Z. fold runMs taskMs.
    rewrite (div_Fin _ _ Hrun). fold proportional.
    destruct (lt proportional (Fin (Qc_of_Z 5))); auto.
Qed.

Lemma truthy_false (s : nullable string) :
  truthy s = false <-> s = undefined \/ s = null \/ s = val "".
Proof.
  destruct s as [| |v]; cbn; [tauto | tauto |].
  destruct (String.eqb_spec v ""); subst; cbn.
  - tauto.
  - split; [discriminate | intros [H|[H|H]]; congruence].
Qed.

Lemma truthy_true (s : nullable string) :
  truthy s = true <-> exists v, s = val v /\ v <> "".
Proof.
  destruct s as [| |v]; cbn.
  - split; [discriminate | intros (v & H & _); discriminate].
  - split; [discriminate | intros (v & H & _); discriminate].
  - destruct (String.eqb_spec v ""); subst; cbn.
    + split; [discriminate | intros (v & H & N); congruence].
    + split; [eauto | reflexivity].
Qed.

Lemma strict_eq_true (a b : nullable string) :
  strict_eq a b = true <-> a = b.
Proof.
  destruct a as [| |x], b as [| |y]; cbn; try easy.
  rewrite String.eqb_eq. split; congruence.
Qed.

Lemma str_lt_irrefl (s : string) : str_lt s s = false.
Proof.
  unfold str_lt, String.ltb.
  pose proof (String.compare_antisym s s) as H.
  destruct (String.compare s s); cbn in H; try discriminate; reflexivity.
Qed.

(** When the queued timestamp counts: it is a non-empty string, and either
    there is no start or it precedes the start as a string. *)
Lemma hasValidQueuedDttm_true (ti : TaskInstance.t) :
  hasValidQueuedDttm (Some ti) = true
  <-> exists q, TaskInstance.queuedDttm ti = val q /\ q <> ""
        /\ (truthy (TaskInstance.startDate ti) = false
            \/ exists s, TaskInstance.startDate ti = val s
                  /\ str_lt q s = true).
Proof.
  unfold hasValidQueuedDttm; cbn [opt_field].
  rewrite andb_true_iff, truthy_true. split.
  - intros [(q & Hq & Hne) H]. exists q. repeat split; trivial.
    rewrite Hq in H.
    destruct (truthy (TaskInstance.startDate ti)) eqn:Hs; [right | now left].
    apply truthy_true in Hs. destruct Hs as (s & Hs & _).
    exists s. split; [assumption|].
    rewrite Hs in H. cbn [andb] in H.
    now replace (truthy (val q)) with true in H
      by (symmetry; apply truthy_true; eauto).
  - intros (q & Hq & Hne & H). split; [eauto|].
    rewrite Hq.
    replace (truthy (val q)) with true
      by (symmetry; apply truthy_true; eauto).
    destruct H as [Hs | (s & Hs & Hlt)].
    + now rewrite Hs.
    + rewrite Hs. now destruct (truthy (val s)).
Qed.

(** C2, as it holds of the code. For an instance of the run on display, the
    queued segment is drawn exactly when the state of the instance is not
    "queued", its queued timestamp is a non-empty string, and its start is
    missing (undefined, null or empty) or the queued timestamp precedes the
    start in the comparison of the two strings. When the queued timestamp
    does not count, the segment is absent and the bar is as wide as the
    segment of the instance plus zero; a queued timestamp equal to the start
    gives no queued segment. *)
Theorem C2_queued_segment
    (ganttWidth : option number) (openGroupIds : list string) (task : Task)
    (ti : TaskInstance.t) (ganttStartDate ganttEndDate : nullable string) :
  findInstance task = Some ti ->
  exists bar : Tooltip,
    box_bar (box (element (Row ganttWidth openGroupIds task ganttStartDate
                               ganttEndDate))) = Some bar
    /\ (flex_queued (tooltip_bar bar) <> None
        <-> TaskInstance.state ti <> val "queued"
            /\ exists q, TaskInstance.queuedDttm ti = val q /\ q <> ""
                  /\ ((TaskInstance.startDate ti = undefined
                       \/ TaskInstance.startDate ti = null
                       \/ TaskInstance.startDate ti = val "")
                      \/ exists s, TaskInstance.startDate ti = val s
                            /\ str_lt q s = true))
    /\ (hasValidQueuedDttm (Some ti) = false ->
        flex_queued (tooltip_bar bar) = None
        /\ flex_width (tooltip_bar bar)
           = add (ss_width (flex_main (tooltip_bar bar))) (of_Z 0))
    /\ (TaskInstance.queuedDttm ti = TaskInstance.startDate ti ->
        flex_queued (tooltip_bar bar) = None).
Proof.
  intros Hi. bar_of Hi.
  assert (Hshow : showsQueued ti = true
                  <-> TaskInstance.state ti <> val "queued"
                      /\ hasValidQueuedDttm (Some ti) = true).
  { unfold showsQueued. rewrite andb_true_iff, negb_true_iff.
    rewrite <- not_true_iff_false, strict_eq_true. tauto. }
  split; [|split].
  - transitivity (showsQueued ti = true).
    { destruct (showsQueued ti); split; congruence. }
    rewrite Hshow, hasValidQueuedDttm_true.
    split; intros (Hst & q & Hq & Hne & H); (split; [exact Hst|]);
      exists q; (split; [exact Hq|]); (split; [exact Hne|]);
      destruct H as [H | H]; [left | now right | left | now right];
      now apply truthy_false.
  - intros Hq. split.
    + unfold showsQueued. rewrite Hq, andb_false_r. reflexivity.
    + unfold queuedBarWidth. rewrite Hq. reflexivity.
  - intros Heq.
    destruct (showsQueued ti) eqn:E; [|reflexivity].
    destruct (proj1 Hshow eq_refl) as [_ Hv].
    apply hasValidQueuedDttm_true in Hv.
    destruct Hv as (q & Hq & Hne & [Hs | (s & Hs & Hlt)]).
    + rewrite <- Heq, Hq in Hs. apply truthy_false in Hs.
      destruct Hs as [Hs|[Hs|Hs]]; congruence.
    + rewrite <- Heq, Hq in Hs. injection Hs as <-.
      now rewrite str_lt_irrefl in Hlt.
Qed.

(** Durations are finite numbers, whatever the timestamps. *)
Lemma getDuration_finite (a b : nullable string) :
  exists q : Qc, getDuration a b = Fin q.
Proof.
  unfold getDuration, of_Z. destruct a, b; eauto.
Qed.

Lemma taskDuration_finite (instance : option TaskInstance.t) :
  exists q : Qc, taskDuration instance = Fin q.
Proof. apply getDuration_finite. Qed.

Lemma taskStartOffset_finite (g : nullable string)
    (instance : option TaskInstance.t) :
  exists q : Qc, taskStartOffset g instance = Fin q.
Proof.
  unfold taskStartOffset.
  destruct (hasValidQueuedDttm instance); apply getDuration_finite.
Qed.

(** The 5px floor: the outcome is [NaN] or at least 5. *)
Lemma floor_at_least_5 (x : number) :
  let w := if lt x (of_Z 5) then of_Z 5 else x in
  w = NaN \/ le (of_Z 5) w = true.
Proof.
  cbv zeta. destruct (lt x (of_Z 5)) eqn:E.
  - right. apply le_Fin, Qcle_refl.
  - destruct x as [q| | |]; [right | right | discriminate | left];
      try reflexivity.
    now apply le_Fin, lt_Fin_false.
Qed.

(** C3, as it holds of the code. Under a window of length zero nothing
    guards the geometry: the bar of the instance on display is still drawn,
    its left offset is not a finite number ([NaN] or an infinity), and the
    width of its segment is [NaN], [Infinity] or the 5px floor. *)
Theorem C3_zero_window_unguarded
    (ganttWidth : option number) (openGroupIds : list string) (task : Task)
    (ti : TaskInstance.t) (ganttStartDate ganttEndDate : nullable string) :
  findInstance task = Some ti ->
  getDuration ganttStartDate ganttEndDate = of_Z 0 ->
  exists bar : Tooltip,
    box_bar (box (element (Row ganttWidth openGroupIds task ganttStartDate
                               ganttEndDate))) = Some bar
    /\ is_finite (flex_left (tooltip_bar bar)) = false
    /\ (ss_width (flex_main (tooltip_bar bar)) = NaN
        \/ ss_width (flex_main (tooltip_bar bar)) = PosInf
        \/ ss_width (flex_main (tooltip_bar bar)) = of_Z 5).
Proof.
  intros Hi Hzero. bar_of Hi. split.
  - unfold offsetMargin, percent. rewrite Hzero.
    apply mul_not_finite_l, div_zero_not_finite.
  - unfold barWidth, percent. rewrite Hzero.
    pose proof (mul_not_finite_r (defaultWidth ganttWidth) _
                  (div_zero_not_finite (taskDuration (Some ti)))) as Hraw.
    destruct (mul (defaultWidth ganttWidth)
                  (div (taskDuration (Some ti)) (of_Z 0)));
      cbn in Hraw |- *; try discriminate; auto.
Qed.

(** C4, as it holds of the code. The 5px floor applies to the segment of the
    instance and, apart from it, to the queued width when the queued
    timestamp is valid: a computed width is replaced by 5 exactly when it is
    less than 5, whatever the duration it comes from; the queued width of a
    queued timestamp that is not valid is 0 and stays 0. So the segment of
    the instance is at least 5px wide unless its width is [NaN], and always
    when the width of the chart is finite and the window is not of length
    zero. *)
Theorem C4_minimum_width
    (ganttWidth : option number) (openGroupIds : list string) (task : Task)
    (ti : TaskInstance.t) (ganttStartDate ganttEndDate : nullable string) :
  findInstance task = Some ti ->
  let runDuration := getDuration ganttStartDate ganttEndDate in
  let computed :=
    mul (defaultWidth ganttWidth)
        (div (taskDuration (Some ti)) runDuration) in
  let computedQueued :=
    mul (defaultWidth ganttWidth)
        (div (queuedDuration (Some ti)) runDuration) in
  exists (bar : Tooltip) (queuedWidth : number),
    box_bar (box (element (Row ganttWidth openGroupIds task ganttStartDate
                               ganttEndDate))) = Some bar
    /\ ((lt computed (of_Z 5) = true
         /\ ss_width (flex_main (tooltip_bar bar)) = of_Z 5)
        \/ (lt computed (of_Z 5) = false
            /\ ss_width (flex_main (tooltip_bar bar)) = computed))
    /\ flex_width (tooltip_bar bar)
       = add (ss_width (flex_main (tooltip_bar bar))) queuedWidth
    /\ (forall queued : SimpleStatus,
          flex_queued (tooltip_bar bar) = Some queued ->
          ss_width queued = queuedWidth)
    /\ (hasValidQueuedDttm (Some ti) = true ->
        (lt computedQueued (of_Z 5) = true /\ queuedWidth = of_Z 5)
        \/ (lt computedQueued (of_Z 5) = false
            /\ queuedWidth = computedQueued))
    /\ (hasValidQueuedDttm (Some ti) = false -> queuedWidth = of_Z 0)
    /\ (ss_width (flex_main (tooltip_bar bar)) = NaN
        \/ le (of_Z 5) (ss_width (flex_main (tooltip_bar bar))) = true)
    /\ (is_finite (defaultWidth ganttWidth) = true ->
        runDuration <> of_Z 0 ->
        le (of_Z 5) (ss_width (flex_main (tooltip_bar bar))) = true).
Proof.
  intros Hi runDuration computed computedQueued.
  rewrite Row_bar, Hi. cbn [option_map].
  exists (instanceBar (defaultWidth ganttWidth) ganttStartDate ganttEndDate
                      task ti),
         (queuedBarWidth (defaultWidth ganttWidth) ganttStartDate
                         ganttEndDate (Some ti)).
  split; [reflexivity|].
  unfold instanceBar;
    cbn [tooltip_bar flex_width flex_queued flex_main ss_width].
  unfold barWidth, percent. fold runDuration computed.
  repeat match goal with |- _ /\ _ => split end.
  - destruct (lt computed (of_Z 5)); auto.
  - reflexivity.
  - intros queued Hq. destruct (showsQueued ti); [|discriminate].
    now injection Hq as <-.
  - intros Hvalid. unfold queuedBarWidth, percent. rewrite Hvalid.
    fold runDuration computedQueued. cbn [andb].
    destruct (lt computedQueued (of_Z 5)); auto.
  - intros Hinvalid. unfold queuedBarWidth. now rewrite Hinvalid.
  - apply floor_at_least_5.
  - intros Hfin Hrun.
    destruct (floor_at_least_5 computed) as [Hnan | Hle]; [|exact Hle].
    exfalso. cbv zeta in Hnan.
    destruct (lt computed (of_Z 5)); [discriminate|].
    unfold computed in Hnan.
    destruct (taskDuration_finite (Some ti)) as [t Ht].
    destruct (getDuration_finite ganttStartDate ganttEndDate) as [r Hr].
    fold runDuration in Hr. rewrite Ht, Hr in Hnan.
    destruct (defaultWidth ganttWidth) as [w| | |]; try discriminate.
    rewrite div_Fin in Hnan; [discriminate|].
    intros ->. now apply Hrun.
Qed.

Lemma includes_In (xs : list string) (x : string) :
  includes xs x = true <-> In x xs.
Proof.
  unfold includes. rewrite existsb_exists. split.
  - intros (y & Hy & E). apply String.eqb_eq in E. now subst.
  - intros H. exists x. split; [assumption | apply String.eqb_refl].
Qed.

Lemma isOpen_In (openGroupIds : list string) (task : Task) :
  isOpen openGroupIds task = true
  <-> In (or_string (id task) "") openGroupIds.
Proof. apply includes_In. Qed.

(** No instance of the run on display: the lookup finds none. *)
Lemma findInstance_none (task : Task) :
  (forall ti, In ti (instances task) ->
              val (TaskInstance.runId ti) <> Selection.runId selected) ->
  findInstance task = None.
Proof.
  unfold findInstance. induction (instances task) as [|ti l IH]; intros H.
  - reflexivity.
  - cbn [find].
    destruct (strict_eq (val (TaskInstance.runId ti))
                        (Selection.runId selected)) eqn:E.
    + apply strict_eq_true in E. exfalso. now apply (H ti); [left|].
    + apply IH. intros x Hx. apply H. now right.
Qed.

(** Without a fetched list there is no marker. *)
Lemma failMarkers_not_loaded (ganttWidth : number)
    (ganttStartDate ganttEndDate : nullable string)
    (instance : option TaskInstance.t) :
  failMarkers ganttWidth ganttStartDate ganttEndDate instance None = [].
Proof. reflexivity. Qed.

(** A disabled query lets no request through and yields no list. *)
Lemma useTaskFails_disabled (q : TaskFailsQuery.t) :
  TaskFailsQuery.enabled q = false -> useTaskFails q = (None, []).
Proof. unfold useTaskFails. now intros ->. Qed.

(** C5.  When no instance of the task belongs to the run on display, the
    row is its frame alone: no bar (hence no tooltip) and no failure
    marker are drawn, and the row asks for no failure history.  The render
    returns as for any other row. *)
Theorem C5_no_instance_frame_only
    (ganttWidth : option number) (openGroupIds : list string) (task : Task)
    (ganttStartDate ganttEndDate : nullable string) :
  (forall ti, In ti (instances task) ->
              val (TaskInstance.runId ti) <> Selection.runId selected) ->
  exists frame : Box,
    element (Row ganttWidth openGroupIds task ganttStartDate ganttEndDate)
    = RowDiv frame
        (map (fun c => element (Row (Some (defaultWidth ganttWidth))
                                    openGroupIds c ganttStartDate
                                    ganttEndDate))
             (openChildren openGroupIds task))
    /\ box_bar frame = None
    /\ box_fails frame = []
    /\ snd (useTaskFails (taskFailsQuery (findInstance task) task)) = [].
Proof.
  intros Hnone. apply findInstance_none in Hnone.
  rewrite Row_element, Hnone.
  assert (Hoff : useTaskFails (taskFailsQuery None task) = (None, []))
    by now apply useTaskFails_disabled.
  rewrite Hoff. cbn [fst snd].
  eexists. split; [reflexivity|].
  unfold rowBox. rewrite Hnone. cbn [box_bar box_fails].
  repeat split; reflexivity.
Qed.

(** C6.  The rows below a row are those of the members of an open group:
    there are some exactly when the key of the task (its id, or the empty
    string when it has none) is among the open groups and the task has at
    least one child; they are then one row per child, in the order of
    [task.children], each rendered with the width, the open groups and
    the window of the parent.  A task that is not open, or has no
    children, has no row below it. *)
Theorem C6_child_rows
    (ganttWidth : option number) (openGroupIds : list string) (task : Task)
    (ganttStartDate ganttEndDate : nullable string) :
  let below :=
    rows (element (Row ganttWidth openGroupIds task ganttStartDate
                       ganttEndDate)) in
  let childRow := fun c : Task =>
    element (Row (Some (defaultWidth ganttWidth)) openGroupIds c
                 ganttStartDate ganttEndDate) in
  (below <> []
   <-> In (or_string (id task) "") openGroupIds
       /\ exists c cs, children task = Some (c :: cs))
  /\ (forall i : string, id task = val i -> i <> "" ->
      (below <> []
       <-> In i openGroupIds /\ exists c cs, children task = Some (c :: cs)))
  /\ (forall cs : list Task,
        In (or_string (id task) "") openGroupIds ->
        children task = Some cs ->
        below = map childRow cs)
  /\ (~ In (or_string (id task) "") openGroupIds -> below = [])
  /\ (children task = None -> below = []).
Proof.
  intros below childRow.
  assert (Hbelow : below = map childRow (openChildren openGroupIds task)).
  { unfold below. now rewrite Row_element. }
  assert (Hmain :
    below <> []
    <-> In (or_string (id task) "") openGroupIds
        /\ exists c cs, children task = Some (c :: cs)).
  { rewrite Hbelow, <- isOpen_In. unfold openChildren.
    destruct (children task) as [[|c cs]|];
      destruct (isOpen openGroupIds task); cbn [map];
      split; try congruence; try (intros [_ (c' & cs' & H)]; congruence);
      try (intros [H _]; congruence).
    intros _. split; eauto. }
  split; [exact Hmain|]. split; [|split; [|split]].
  - intros i Hid Hne. rewrite Hmain, Hid. cbn [or_string].
    destruct (String.eqb_spec i ""); [contradiction | reflexivity].
  - intros cs Hopen Hcs. rewrite Hbelow. unfold openChildren.
    apply isOpen_In in Hopen. now rewrite Hcs, Hopen.
  - intros Hclosed. rewrite Hbelow. unfold openChildren.
    destruct (children task); [|reflexivity].
    destruct (isOpen openGroupIds task) eqn:E; [|reflexivity].
    apply isOpen_In in E. contradiction.
  - intros Hnone. rewrite Hbelow. unfold openChildren. now rewrite Hnone.
Qed.

(** C7, as it holds of the code.  With an instance on display and a
    fetched failure history, the markers drawn are, in order and one for
    one, the entries of the history whose start differs from the start of
    the instance and, read by [moment], is a valid instant strictly after
    the start of the window read the same way: an undefined timestamp is
    read as the current time, a null, empty or unparsable one as no
    instant.  No other entry gets a marker.  When the start of the entry
    and the start of the window are both timestamps that parse, the
    second condition is that the first is strictly after the second. *)
Theorem C7_failure_markers
    (ganttWidth : option number) (openGroupIds : list string) (task : Task)
    (ti : TaskInstance.t) (ganttStartDate ganttEndDate : nullable string)
    (fails : list TaskFail.t) :
  findInstance task = Some ti ->
  fst (useTaskFails (taskFailsQuery (Some ti) task)) = Some fails ->
  exists keep : TaskFail.t -> bool,
    (forall tf : TaskFail.t,
        keep tf = true
        <-> TaskFail.startDate tf <> TaskInstance.startDate ti
            /\ exists x g : Z,
                 moment (TaskFail.startDate tf) = Some x
                 /\ moment ganttStartDate = Some g
                 /\ (g < x)%Z)
    /\ (forall (tf : TaskFail.t) (x g : string),
          TaskFail.startDate tf = val x ->
          ganttStartDate = val g ->
          x <> "" -> parses x = true ->
          g <> "" -> parses g = true ->
          (keep tf = true
           <-> TaskFail.startDate tf <> TaskInstance.startDate ti
               /\ (millis g < millis x)%Z))
    /\ map marker_taskFail
           (box_fails (box (element (Row ganttWidth openGroupIds task
                                         ganttStartDate ganttEndDate))))
       = filter keep fails.
Proof.
  intros Hi Hfetch.
  exists (fun tf =>
            negb (strict_eq (TaskFail.startDate tf)
                            (TaskInstance.startDate ti))
            && isAfter (TaskFail.startDate tf) ganttStartDate).
  assert (Hkeep : forall tf : TaskFail.t,
             negb (strict_eq (TaskFail.startDate tf)
                             (TaskInstance.startDate ti))
             && isAfter (TaskFail.startDate tf) ganttStartDate = true
             <-> TaskFail.startDate tf <> TaskInstance.startDate ti
                 /\ exists x g : Z,
                      moment (TaskFail.startDate tf) = Some x
                      /\ moment ganttStartDate = Some g
                      /\ (g < x)%Z).
  { intros tf. rewrite andb_true_iff, negb_true_iff.
    rewrite <- not_true_iff_false, strict_eq_true.
    apply and_iff_compat_l. unfold isAfter.
    destruct (moment (TaskFail.startDate tf)) as [x|];
      destruct (moment ganttStartDate) as [g|];
      try (split; [discriminate
                  | intros (x' & g' & H1 & H2 & _); discriminate]).
    rewrite Z.ltb_lt. split.
    - intros Hlt. now exists x, g.
    - intros (x' & g' & [= <-] & [= <-] & Hlt). exact Hlt. }
  split; [exact Hkeep|]. split.
  - intros tf x g Hx Hg Hxne Hxp Hgne Hgp. rewrite Hkeep.
    apply and_iff_compat_l. rewrite Hx, Hg. cbn [moment].
    apply String.eqb_neq in Hxne, Hgne.
    rewrite Hxne, Hgne, Hxp, Hgp. cbn [negb andb]. split.
    + intros (x' & g' & [= <-] & [= <-] & Hlt). exact Hlt.
    + intros Hlt. now exists (millis x), (millis g).
  - rewrite Row_element, Hi, Hfetch. cbn [box rowBox box_fails].
    rewrite Hi. unfold failMarkers. cbn [opt_field].
    rewrite map_map. cbn [marker_taskFail]. apply map_id.
Qed.

Lemma gt_one_truthy (n : number) :
  gt n (of_Z 1) = true -> truthy_number (val n) = true.
Proof.
  intros H. destruct n as [q| | |];
    [| reflexivity | discriminate H | discriminate H].
  unfold gt, of_Z in H. apply lt_Fin in H.
  unfold truthy_number.
  destruct (q ?= Qc_of_Z 0)%Qc eqn:Z0; try reflexivity.
  apply Qceq_alt in Z0. subst q.
  exfalso. apply (Qclt_not_le _ _ H).
  apply Qclt_le_weak, Qc_of_Z_lt. lia.
Qed.

(** When the failure history is asked for. *)
Lemma fetchEnabled_true (instance : option TaskInstance.t) (task : Task) :
  fetchEnabled instance task = true
  <-> (exists ti n, instance = Some ti
         /\ TaskInstance.tryNumber ti = val n
         /\ gt n (of_Z 1) = true)
      /\ exists i, id task = val i /\ i <> "".
Proof.
  unfold fetchEnabled. rewrite andb_true_iff, truthy_true.
  apply and_iff_compat_r. split.
  - destruct instance as [ti|]; [|discriminate].
    destruct (TaskInstance.tryNumber ti) as [| |n] eqn:E;
      try discriminate.
    intros H. apply andb_true_iff in H. destruct H as [_ H].
    now exists ti, n.
  - intros (ti & n & -> & -> & H). now rewrite H, gt_one_truthy.
Qed.

(** C8.  The query of the failure history is enabled exactly when the
    instance on display has a try number greater than 1 and the task has
    an identifier.  A disabled query lets no request through: the row has
    no list of failures, draws no marker, and the requests of the render
    are those of the rows below it alone.  An enabled one issues the one
    request of the row. *)
Theorem C8_fetch_enabled
    (ganttWidth : option number) (openGroupIds : list string) (task : Task)
    (ganttStartDate ganttEndDate : nullable string) :
  let query := taskFailsQuery (findInstance task) task in
  let row := Row ganttWidth openGroupIds task ganttStartDate ganttEndDate in
  (TaskFailsQuery.enabled query = true
   <-> (exists ti n, findInstance task = Some ti
          /\ TaskInstance.tryNumber ti = val n
          /\ gt n (of_Z 1) = true)
       /\ exists i, id task = val i /\ i <> "")
  /\ (TaskFailsQuery.enabled query = false ->
      useTaskFails query = (None, [])
      /\ box_fails (box (element row)) = []
      /\ fetches row
         = concat
             (map (fun c => fetches (Row (Some (defaultWidth ganttWidth))
                                         openGroupIds c ganttStartDate
                                         ganttEndDate))
                  (openChildren openGroupIds task)))
  /\ (TaskFailsQuery.enabled query = true ->
      snd (useTaskFails query) = [query]).
Proof.
  intros query row. split; [apply fetchEnabled_true|]. split.
  - intros Hoff. pose proof (useTaskFails_disabled query Hoff) as Hnone.
    split; [exact Hnone|]. unfold row. split.
    + rewrite Row_element. fold query. rewrite Hnone.
      cbn [box rowBox box_fails fst]. apply failMarkers_not_loaded.
    + rewrite Row_fetches. fold query. now rewrite Hnone.
  - intros Hon. unfold useTaskFails. now rewrite Hon.
Qed.

Lemma Qcinv_pos (r : Qc) : (Qc_of_Z 0 < r)%Qc -> (Qc_of_Z 0 < / r)%Qc.
Proof.
  unfold Qclt. cbn. intros H. rewrite Qred_correct.
  now apply Qinv_lt_0_compat.
Qed.

(** The margin of a finite offset under a window of non-zero length. *)
Lemma offsetMargin_Fin (W a r : Qc) (ganttStartDate ganttEndDate
    : nullable string) (instance : option TaskInstance.t) :
  taskStartOffset ganttStartDate instance = Fin a ->
  getDuration ganttStartDate ganttEndDate = Fin r ->
  r <> Qc_of_Z 0 ->
  offsetMargin (Fin W) ganttStartDate ganttEndDate instance
  = Fin (a / r * W)%Qc.
Proof.
  intros Ha Hr Hnz. unfold offsetMargin, percent.
  now rewrite Ha, Hr, (div_Fin _ _ Hnz).
Qed.

(** C9, as it holds of the code. Under one window of positive length and one
    finite width that is not negative, the margin grows with the offset: of
    two instances, the one with the smaller taskStartOffset has a margin
    less than or equal to the other's. *)
Theorem C9_offsetMargin_monotone
    (W : Qc) (ganttStartDate ganttEndDate : nullable string)
    (ti1 ti2 : TaskInstance.t) :
  (Qc_of_Z 0 <= W)%Qc ->
  lt (of_Z 0) (getDuration ganttStartDate ganttEndDate) = true ->
  lt (taskStartOffset ganttStartDate (Some ti1))
     (taskStartOffset ganttStartDate (Some ti2)) = true ->
  le (offsetMargin (Fin W) ganttStartDate ganttEndDate (Some ti1))
     (offsetMargin (Fin W) ganttStartDate ganttEndDate (Some ti2)) = true.
Proof.
  intros HW Hrun Hlt.
  destruct (taskStartOffset_finite ganttStartDate (Some ti1)) as [a Ha].
  destruct (taskStartOffset_finite ganttStartDate (Some ti2)) as [b Hb].
  destruct (getDuration_finite ganttStartDate ganttEndDate) as [r Hr].
  rewrite Ha, Hb in Hlt. rewrite Hr in Hrun.
  apply lt_Fin in Hlt. apply lt_Fin in Hrun.
  assert (Hnz : r <> Qc_of_Z 0) by now apply not_eq_sym, Qclt_not_eq.
  rewrite (offsetMargin_Fin W a r _ _ _ Ha Hr Hnz).
  rewrite (offsetMargin_Fin W b r _ _ _ Hb Hr Hnz).
  apply le_Fin, Qcmult_le_compat_r; [|exact HW].
  unfold Qcdiv. apply Qcmult_le_compat_r.
  - now apply Qclt_le_weak.
  - now apply Qclt_le_weak, Qcinv_pos.
Qed.

(** In the exact arithmetic of the model the order is strict as soon as
    the width is positive. *)
Lemma offsetMargin_strict
    (W : Qc) (ganttStartDate ganttEndDate : nullable string)
    (ti1 ti2 : TaskInstance.t) :
  (Qc_of_Z 0 < W)%Qc ->
  lt (of_Z 0) (getDuration ganttStartDate ganttEndDate) = true ->
  lt (taskStartOffset ganttStartDate (Some ti1))
     (taskStartOffset ganttStartDate (Some ti2)) = true ->
  lt (offsetMargin (Fin W) ganttStartDate ganttEndDate (Some ti1))
     (offsetMargin (Fin W) ganttStartDate ganttEndDate (Some ti2)) = true.
Proof.
  intros HW Hrun Hlt.
  destruct (taskStartOffset_finite ganttStartDate (Some ti1)) as [a Ha].
  destruct (taskStartOffset_finite ganttStartDate (Some ti2)) as [b Hb].
  destruct (getDuration_finite ganttStartDate ganttEndDate) as [r Hr].
  rewrite Ha, Hb in Hlt. rewrite Hr in Hrun.
  apply lt_Fin in Hlt. apply lt_Fin in Hrun.
  assert (Hnz : r <> Qc_of_Z 0) by now apply not_eq_sym, Qclt_not_eq.
  rewrite (offsetMargin_Fin W a r _ _ _ Ha Hr Hnz).
  rewrite (offsetMargin_Fin W b r _ _ _ Hb Hr Hnz).
  apply lt_Fin, Qcmult_lt_compat_r; [exact HW|].
  unfold Qcdiv. apply Qcmult_lt_compat_r; [now apply Qcinv_pos | exact Hlt].
Qed.

(** C10.  A task whose id is null, undefined or the empty string is open
    exactly when the empty string is among the open groups: the rows of
    its children are drawn when it is, and none when it is not. *)
Theorem C10_identifierless_group
    (ganttWidth : option number) (openGroupIds : list string) (task : Task)
    (ganttStartDate ganttEndDate : nullable string) :
  id task = null \/ id task = undefined \/ id task = val "" ->
  let below :=
    rows (element (Row ganttWidth openGroupIds task ganttStartDate
                       ganttEndDate)) in
  (isOpen openGroupIds task = true <-> In "" openGroupIds)
  /\ (forall cs : list Task,
        In "" openGroupIds ->
        children task = Some cs ->
        below
        = map (fun c => element (Row (Some (defaultWidth ganttWidth))
                                     openGroupIds c ganttStartDate
                                     ganttEndDate)) cs)
  /\ (~ In "" openGroupIds -> below = []).
Proof.
  intros Hid below.
  assert (Hkey : or_string (id task) "" = "")
    by (destruct Hid as [-> | [-> | ->]]; reflexivity).
  assert (Hopen : isOpen openGroupIds task = true <-> In "" openGroupIds)
    by now rewrite isOpen_In, Hkey.
  split; [exact Hopen|].
  unfold below. rewrite Row_element. cbn [rows]. unfold openChildren.
  split.
  - intros cs Hin Hcs. apply Hopen in Hin. now rewrite Hcs, Hin.
  - intros Hout. destruct (children task); [|reflexivity].
    destruct (isOpen openGroupIds task) eqn:E; [|reflexivity].
    exfalso. now apply Hout, Hopen.
Qed.

(** ** The whole tree of a render *)

(** Induction on a task through its children. *)
Lemma Task_children_ind (P : Task -> Prop) :
  (forall i cs l,
      (forall c, In c (match cs with Some x => x | None => [] end) -> P c) ->
      P (mkTask i cs l)) ->
  forall t, P t.
Proof.
  intros H. fix IH 1. intros [i cs l]. apply H.
  destruct cs as [cs|]; [|intros c []].
  induction cs as [|x r IHr]; intros c Hc; [destruct Hc|].
  destruct Hc as [<- | Hc]; [apply IH | now apply IHr].
Qed.

Lemma openChildren_children (openGroupIds : list string) (task : Task)
    (c : Task) :
  In c (openChildren openGroupIds task) ->
  In c (match children task with Some x => x | None => [] end).
Proof.
  unfold openChildren. destruct (children task); [|easy].
  now destruct (isOpen openGroupIds task).
Qed.

Lemma visibleTasks_unfold (openGroupIds : list string) (task : Task) :
  visibleTasks openGroupIds task
  = task :: flat_map (visibleTasks openGroupIds)
                     (openChildren openGroupIds task).
Proof.
  destruct task as [i [cs|] l]; unfold openChildren;
    cbn [visibleTasks children]; [|reflexivity].
  now destruct (isOpen openGroupIds _).
Qed.

(** A render depends on the width it is given through its default only. *)
Lemma Row_width_resolved (ganttWidth : option number)
    (openGroupIds : list string) (task : Task)
    (ganttStartDate ganttEndDate : nullable string) :
  Row ganttWidth openGroupIds task ganttStartDate ganttEndDate
  = Row (Some (defaultWidth ganttWidth)) openGroupIds task ganttStartDate
        ganttEndDate.
Proof. now destruct task as [i [cs|] l]. Qed.

Lemma flat_map_of_map {A B C : Type} (k : B -> list C) (g : A -> B)
    (l : list A) :
  flat_map k (map g l) = flat_map (fun x => k (g x)) l.
Proof.
  induction l as [|x r IH]; cbn [map flat_map]; [reflexivity|].
  now rewrite IH.
Qed.

Lemma flat_map_map_In {A B C : Type} (f : B -> C) (h : A -> list B)
    (k : A -> list C) (l : list A) :
  (forall x, In x l -> k x = map f (h x)) ->
  flat_map k l = map f (flat_map h l).
Proof.
  induction l as [|x r IH]; intros H; cbn [flat_map map]; [reflexivity|].
  rewrite map_app, (H x), IH; [reflexivity | | now left].
  intros y Hy. apply H. now right.
Qed.

Lemma concat_map_flat_map_In {A B C : Type} (f : B -> list C)
    (h : A -> list B) (k : A -> list C) (l : list A) :
  (forall x, In x l -> k x = flat_map f (h x)) ->
  concat (map k l) = flat_map f (flat_map h l).
Proof.
  induction l as [|x r IH]; intros H; cbn [flat_map map concat];
    [reflexivity|].
  rewrite flat_map_app, (H x), IH; [reflexivity | | now left].
  intros y Hy. apply H. now right.
Qed.

(** The rows of a render are the renders of the tasks it shows. *)
Lemma allRows_Row
    (ganttWidth : option number) (openGroupIds : list string) (task : Task)
    (ganttStartDate ganttEndDate : nullable string) :
  allRows (element (Row ganttWidth openGroupIds task ganttStartDate
                        ganttEndDate))
  = map (fun t => element (Row (Some (defaultWidth ganttWidth))
                               openGroupIds t ganttStartDate ganttEndDate))
        (visibleTasks openGroupIds task).
Proof.
  revert ganttWidth.
  induction task as [i cs l IH] using Task_children_ind. intros ganttWidth.
  rewrite visibleTasks_unfold, Row_element. cbn [allRows map]. f_equal.
  - now rewrite Row_element.
  - rewrite flat_map_of_map. apply flat_map_map_In.
    intros c Hc. apply openChildren_children in Hc.
    apply (IH c Hc (Some (defaultWidth ganttWidth))).
Qed.

(** The requests of a render are those of the tasks it shows. *)
Lemma fetches_Row
    (ganttWidth : option number) (openGroupIds : list string) (task : Task)
    (ganttStartDate ganttEndDate : nullable string) :
  fetches (Row ganttWidth openGroupIds task ganttStartDate ganttEndDate)
  = flat_map ownRequest (visibleTasks openGroupIds task).
Proof.
  revert ganttWidth.
  induction task as [i cs l IH] using Task_children_ind. intros ganttWidth.
  rewrite visibleTasks_unfold, Row_fetches. cbn [flat_map]. f_equal.
  - unfold useTaskFails, ownRequest.
    cbn [TaskFailsQuery.enabled taskFailsQuery].
    now destruct (fetchEnabled _ _).
  - apply concat_map_flat_map_In.
    intros c Hc. apply openChildren_children in Hc.
    apply (IH c Hc (Some (defaultWidth ganttWidth))).
Qed.

(** X1.  The rows of a render, depth first, are the renders of the tasks
    it shows, one for one and in that order, each with the width, the
    open groups and the window of the root: the task itself, then, for
    every open group, its children and what they show.  Nothing below a
    closed group has a row, so there are as many rows as tasks shown. *)
Theorem rows_of_visible_tasks
    (ganttWidth : option number) (openGroupIds : list string) (task : Task)
    (ganttStartDate ganttEndDate : nullable string) :
  allRows (element (Row ganttWidth openGroupIds task ganttStartDate
                        ganttEndDate))
  = map (fun t => element (Row (Some (defaultWidth ganttWidth))
                               openGroupIds t ganttStartDate ganttEndDate))
        (visibleTasks openGroupIds task)
  /\ length (allRows (element (Row ganttWidth openGroupIds task
                                   ganttStartDate ganttEndDate)))
     = length (visibleTasks openGroupIds task).
Proof.
  rewrite allRows_Row, length_map. now split.
Qed.

(** X2.  The failure-history requests of a render are the enabled queries
    of the tasks it shows, in the order of their rows, and none for
    anything below a closed group.  Every request is enabled, names a
    task by a non-empty id and carries the run of the selection; there
    are at most as many requests as rows. *)
Theorem fetches_of_visible_tasks
    (ganttWidth : option number) (openGroupIds : list string) (task : Task)
    (ganttStartDate ganttEndDate : nullable string) :
  let requests :=
    fetches (Row ganttWidth openGroupIds task ganttStartDate ganttEndDate) in
  requests
  = flat_map (fun t => if fetchEnabled (findInstance t) t
                       then [taskFailsQuery (findInstance t) t]
                       else [])
             (visibleTasks openGroupIds task)
  /\ Forall (fun q =>
               TaskFailsQuery.enabled q = true
               /\ (exists i, TaskFailsQuery.taskId q = val i /\ i <> "")
               /\ TaskFailsQuery.runId q
                  = or_else (Selection.runId selected) undefined)
            requests
  /\ (length requests
      <= length (allRows (element (Row ganttWidth openGroupIds task
                                       ganttStartDate ganttEndDate))))%nat.
Proof.
  intros requests. unfold requests.
  rewrite fetches_Row, allRows_Row, length_map.
  split; [reflexivity|]. split.
  - apply Forall_forall. intros q Hq. apply in_flat_map in Hq.
    destruct Hq as (t & _ & Hq). unfold ownRequest in Hq.
    destruct (fetchEnabled (findInstance t) t) eqn:E; [|destruct Hq].
    destruct Hq as [<- | []]. cbn [TaskFailsQuery.enabled
      TaskFailsQuery.taskId TaskFailsQuery.runId taskFailsQuery].
    split; [exact E|]. split; [|reflexivity].
    apply fetchEnabled_true in E. destruct E as [_ (i & Hi & Hne)].
    exists i. split; [|exact Hne]. rewrite Hi. unfold or_else.
    now replace (truthy (val i)) with true
      by (symmetry; apply truthy_true; eauto).
  - induction (visibleTasks openGroupIds task) as [|t r IH];
      cbn [flat_map length]; [lia|].
    rewrite length_app. unfold ownRequest at 1.
    destruct (fetchEnabled (findInstance t) t); cbn [length]; lia.
Qed.

(** X3.  One scale for the whole tree: every row of a render, at any
    depth, is as wide as the root (500 when no width is given) and
    boxSize + 9 high, and every failure marker on it carries the window
    start, the width and the run duration of the root. *)
Theorem tree_shares_scale
    (ganttWidth : option number) (openGroupIds : list string) (task : Task)
    (ganttStartDate ganttEndDate : nullable string) :
  Forall (fun row =>
            box_width (box row) = defaultWidth ganttWidth
            /\ box_height (box row) = of_Z (boxSize + 9)
            /\ Forall (fun m =>
                         marker_ganttStartDate m = ganttStartDate
                         /\ marker_ganttWidth m = defaultWidth ganttWidth
                         /\ marker_runDuration m
                            = getDuration ganttStartDate ganttEndDate)
                      (box_fails (box row)))
         (allRows (element (Row ganttWidth openGroupIds task ganttStartDate
                                ganttEndDate))).
Proof.
  rewrite allRows_Row. apply Forall_map, Forall_forall.
  intros t _. rewrite Row_element.
  cbn [box rowBox box_width box_height box_fails defaultWidth].
  split; [reflexivity|]. split; [reflexivity|].
  unfold failMarkers. apply Forall_map, Forall_forall.
  intros tf _. now cbn.
Qed.

(** A row whose task has no instance of the run: no query, no bar, no
    marker. *)
Lemma row_without_instance (ganttWidth : option number)
    (openGroupIds : list string) (t : Task)
    (ganttStartDate ganttEndDate : nullable string) :
  findInstance t = None ->
  fetchEnabled (findInstance t) t = false
  /\ box_bar (box (element (Row ganttWidth openGroupIds t ganttStartDate
                                ganttEndDate))) = None
  /\ box_fails (box (element (Row ganttWidth openGroupIds t ganttStartDate
                                  ganttEndDate))) = [].
Proof.
  intros Hnone. rewrite Row_element, Hnone.
  assert (Hoff : useTaskFails (taskFailsQuery None t) = (None, []))
    by now apply useTaskFails_disabled.
  rewrite Hoff. cbn [fst box rowBox box_bar box_fails]. rewrite Hnone.
  repeat split; reflexivity.
Qed.

(** X4.  With no run selected (the run id of the selection is null or
    undefined), a render draws frames only and asks for nothing: in the
    whole tree no row has a bar or a failure marker, and no request is
    issued, whatever instances the tasks have. *)
Theorem no_run_selected_frames_only
    (ganttWidth : option number) (openGroupIds : list string) (task : Task)
    (ganttStartDate ganttEndDate : nullable string) :
  Selection.runId selected = null \/ Selection.runId selected = undefined ->
  Forall (fun row => box_bar (box row) = None /\ box_fails (box row) = [])
         (allRows (element (Row ganttWidth openGroupIds task ganttStartDate
                                ganttEndDate)))
  /\ fetches (Row ganttWidth openGroupIds task ganttStartDate ganttEndDate)
     = [].
Proof.
  intros Hrun.
  assert (Hnone : forall t, findInstance t = None).
  { intros t. apply findInstance_none. intros ti _.
    destruct Hrun as [-> | ->]; discriminate. }
  split.
  - rewrite allRows_Row. apply Forall_map, Forall_forall.
    intros t _.
    now destruct (row_without_instance (Some (defaultWidth ganttWidth))
                    openGroupIds t ganttStartDate ganttEndDate (Hnone t))
      as (_ & Hbar & Hfails).
  - rewrite fetches_Row.
    induction (visibleTasks openGroupIds task) as [|t r IH];
      cbn [flat_map]; [reflexivity|].
    unfold ownRequest at 1.
    destruct (row_without_instance ganttWidth openGroupIds t ganttStartDate
                ganttEndDate (Hnone t)) as (-> & _).
    exact IH.
Qed.

(** X5.  With no task selected (the task id of the selection is null), no
    row of the tree is highlighted: every background is "inherit". *)
Theorem no_task_selected_no_highlight
    (ganttWidth : option number) (openGroupIds : list string) (task : Task)
    (ganttStartDate ganttEndDate : nullable string) :
  Selection.taskId selected = null ->
  Forall (fun row => box_bg (box row) = "inherit")
         (allRows (element (Row ganttWidth openGroupIds task ganttStartDate
                                ganttEndDate))).
Proof.
  intros Hnull. rewrite allRows_Row.
  apply Forall_map, Forall_forall. intros t _.
  rewrite Row_element. cbn [box rowBox box_bg].
  unfold isSelected. rewrite Hnull.
  now destruct (findInstance t).
Qed.

(** ** Bounds of the geometry *)

Lemma Qc_of_Z_le (a b : Z) : (a <= b)%Z -> (Qc_of_Z a <= Qc_of_Z b)%Qc.
Proof.
  intros H. apply Qcle_alt. now rewrite Qc_of_Z_compare.
Qed.

Lemma Qcmult_nonneg (a b : Qc) :
  (Qc_of_Z 0 <= a)%Qc -> (Qc_of_Z 0 <= b)%Qc -> (Qc_of_Z 0 <= a * b)%Qc.
Proof.
  intros Ha Hb. apply Qcle_trans with (Qc_of_Z 0 * b)%Qc.
  - change (Qc_of_Z 0) with (Q2Qc 0). rewrite Qcmult_0_l. apply Qcle_refl.
  - now apply Qcmult_le_compat_r.
Qed.

Lemma Qcdiv_nonneg (a r : Qc) :
  (Qc_of_Z 0 <= a)%Qc -> (Qc_of_Z 0 < r)%Qc -> (Qc_of_Z 0 <= a / r)%Qc.
Proof.
  intros Ha Hr. apply Qcmult_nonneg; [exact Ha|].
  now apply Qclt_le_weak, Qcinv_pos.
Qed.

Lemma Qcdiv_le_1 (a r : Qc) :
  (Qc_of_Z 0 < r)%Qc -> (a <= r)%Qc -> (a / r <= Qc_of_Z 1)%Qc.
Proof.
  intros Hr Ha. unfold Qcdiv.
  assert (H1 : (r * / r)%Qc = Qc_of_Z 1).
  { apply Qcmult_inv_r. now apply not_eq_sym, Qclt_not_eq. }
  rewrite <- H1. apply Qcmult_le_compat_r; [exact Ha|].
  now apply Qclt_le_weak, Qcinv_pos.
Qed.

Lemma Qcdiv_le_compat (a b r : Qc) :
  (Qc_of_Z 0 < r)%Qc -> (a <= b)%Qc -> (a / r <= b / r)%Qc.
Proof.
  intros Hr Hab. unfold Qcdiv. apply Qcmult_le_compat_r; [exact Hab|].
  now apply Qclt_le_weak, Qcinv_pos.
Qed.

(** A share of the width: between 0 and the width when the duration is
    between 0 and the length of the window. *)
Lemma share_bounds (W a r : Qc) :
  (Qc_of_Z 0 <= W)%Qc -> (Qc_of_Z 0 < r)%Qc ->
  (Qc_of_Z 0 <= a)%Qc -> (a <= r)%Qc ->
  (Qc_of_Z 0 <= W * (a / r))%Qc /\ (W * (a / r) <= W)%Qc.
Proof.
  intros HW Hr Ha Har. split.
  - apply Qcmult_nonneg; [exact HW | now apply Qcdiv_nonneg].
  - rewrite Qcmult_comm. rewrite <- (Qcmult_1_l W) at 2.
    apply Qcmult_le_compat_r; [now apply Qcdiv_le_1 | exact HW].
Qed.

(** The width of the segment of a finite duration under a window of
    non-zero length and a finite width. *)
Lemma barWidth_Fin (W t r : Qc) (ganttStartDate ganttEndDate
    : nullable string) (instance : option TaskInstance.t) :
  taskDuration instance = Fin t ->
  getDuration ganttStartDate ganttEndDate = Fin r ->
  r <> Qc_of_Z 0 ->
  barWidth (Fin W) ganttStartDate ganttEndDate instance
  = if lt (Fin (W * (t / r))%Qc) (of_Z 5) then of_Z 5
    else Fin (W * (t / r))%Qc.
Proof.
  intros Ht Hr Hnz. unfold barWidth, percent.
  now rewrite Ht, Hr, (div_Fin _ _ Hnz).
Qed.

(** The offset of the bar, by its left end: the queued timestamp when it
    is valid, the start otherwise; no offset when that one is missing. *)
Lemma taskStartOffset_leftEnd (g0 : string) (ti : TaskInstance.t) :
  taskStartOffset (val g0) (Some ti)
  = match (if hasValidQueuedDttm (Some ti)
           then TaskInstance.queuedDttm ti
           else TaskInstance.startDate ti) with
    | val a => of_Z (millis a - millis g0)
    | _ => of_Z 0
    end.
Proof.
  unfold taskStartOffset.
  destruct (hasValidQueuedDttm (Some ti)) eqn:Hq; cbn [opt_field].
  - rewrite (hasValidQueuedDttm_anchor ti Hq).
    apply hasValidQueuedDttm_true in Hq. destruct Hq as (q & -> & _).
    reflexivity.
  - unfold getDuration. now destruct (TaskInstance.startDate ti).
Qed.

(** X6.  The bar starts inside the frame: for an instance whose left end
    (its queued timestamp when valid, its start otherwise) lies within a
    window of positive length, under a finite width that is not negative,
    the left offset of the bar is between 0 and the width.  So it is for
    an instance that has no left end at all. *)
Theorem bar_starts_within_frame
    (ganttWidth : option number) (W : Qc) (openGroupIds : list string)
    (task : Task) (ti : TaskInstance.t) (g0 g1 : string) :
  findInstance task = Some ti ->
  defaultWidth ganttWidth = Fin W ->
  (Qc_of_Z 0 <= W)%Qc ->
  (millis g0 < millis g1)%Z ->
  match (if hasValidQueuedDttm (Some ti)
         then TaskInstance.queuedDttm ti
         else TaskInstance.startDate ti) with
  | val a => (millis g0 <= millis a <= millis g1)%Z
  | _ => True
  end ->
  exists bar : Tooltip,
    box_bar (box (element (Row ganttWidth openGroupIds task
                               (val g0) (val g1)))) = Some bar
    /\ le (of_Z 0) (flex_left (tooltip_bar bar)) = true
    /\ le (flex_left (tooltip_bar bar)) (Fin W) = true.
Proof.
  intros Hi HW Hpos Hwin Hin. bar_of Hi. rewrite HW.
  assert (Hr : (Qc_of_Z 0 < Qc_of_Z (millis g1 - millis g0))%Qc)
    by (apply Qc_of_Z_lt; lia).
  assert (Hoff : exists d : Z,
             taskStartOffset (val g0) (Some ti) = of_Z d
             /\ (0 <= d <= millis g1 - millis g0)%Z).
  { rewrite taskStartOffset_leftEnd.
    destruct (if hasValidQueuedDttm (Some ti)
              then TaskInstance.queuedDttm ti
              else TaskInstance.startDate ti) as [| |a].
    - exists 0%Z. split; [reflexivity | lia].
    - exists 0%Z. split; [reflexivity | lia].
    - exists (millis a - millis g0)%Z. split; [reflexivity | lia]. }
  destruct Hoff as (d & Hd & Hd0 & Hd1).
  rewrite (offsetMargin_Fin W _ _ (val g0) (val g1) (Some ti) Hd eq_refl)
    by now apply not_eq_sym, Qclt_not_eq.
  rewrite Qcmult_comm.
  destruct (share_bounds W _ _ Hpos Hr (Qc_of_Z_le 0 d Hd0)
              (Qc_of_Z_le d _ Hd1)) as [Hlo Hhi].
  split; apply le_Fin; [exact Hlo | exact Hhi].
Qed.

(** X7.  The segment of an instance stays inside the frame's width: for
    an instance that ends no earlier than it starts and lasts no longer
    than a window of positive length, under a finite width of at least
    5, the segment is between 5 and the width wide. *)
Theorem segment_width_bounds
    (ganttWidth : option number) (W : Qc) (openGroupIds : list string)
    (task : Task) (ti : TaskInstance.t) (g0 g1 s e : string) :
  findInstance task = Some ti ->
  defaultWidth ganttWidth = Fin W ->
  (Qc_of_Z 5 <= W)%Qc ->
  TaskInstance.startDate ti = val s ->
  TaskInstance.endDate ti = val e ->
  (millis g0 < millis g1)%Z ->
  (millis s <= millis e)%Z ->
  (millis e - millis s <= millis g1 - millis g0)%Z ->
  exists bar : Tooltip,
    box_bar (box (element (Row ganttWidth openGroupIds task
                               (val g0) (val g1)))) = Some bar
    /\ le (of_Z 5) (ss_width (flex_main (tooltip_bar bar))) = true
    /\ le (ss_width (flex_main (tooltip_bar bar))) (Fin W) = true.
Proof.
  intros Hi HW H5 Hs He Hwin Hse Hdur. bar_of Hi. rewrite HW.
  assert (Hr : (Qc_of_Z 0 < Qc_of_Z (millis g1 - millis g0))%Qc)
    by (apply Qc_of_Z_lt; lia).
  assert (Hpos : (Qc_of_Z 0 <= W)%Qc).
  { apply Qcle_trans with (Qc_of_Z 5); [|exact H5].
    apply Qc_of_Z_le. lia. }
  assert (Ht : taskDuration (Some ti) = Fin (Qc_of_Z (millis e - millis s))).
  { unfold taskDuration. cbn [opt_field]. now rewrite Hs, He. }
  rewrite (barWidth_Fin W _ _ (val g0) (val g1) (Some ti) Ht eq_refl)
    by now apply not_eq_sym, Qclt_not_eq.
  assert (Ht0 : (Qc_of_Z 0 <= Qc_of_Z (millis e - millis s))%Qc)
    by (apply Qc_of_Z_le; lia).
  destruct (share_bounds W _ _ Hpos Hr Ht0 (Qc_of_Z_le _ _ Hdur))
    as [_ Hhi].
  destruct (lt _ (of_Z 5)) eqn:E.
  - split; apply le_Fin; [apply Qcle_refl | exact H5].
  - split; apply le_Fin; [now apply lt_Fin_false | exact Hhi].
Qed.

(** X8.  A longer run is never drawn narrower: under one window of
    positive length and one finite width that is not negative, of two
    instances the one with the smaller or equal taskDuration has the
    narrower or equal segment, the 5px floor included. *)
Theorem barWidth_monotone
    (W : Qc) (ganttStartDate ganttEndDate : nullable string)
    (ti1 ti2 : TaskInstance.t) :
  (Qc_of_Z 0 <= W)%Qc ->
  lt (of_Z 0) (getDuration ganttStartDate ganttEndDate) = true ->
  le (taskDuration (Some ti1)) (taskDuration (Some ti2)) = true ->
  le (barWidth (Fin W) ganttStartDate ganttEndDate (Some ti1))
     (barWidth (Fin W) ganttStartDate ganttEndDate (Some ti2)) = true.
Proof.
  intros HW Hrun Hle.
  destruct (taskDuration_finite (Some ti1)) as [a Ha].
  destruct (taskDuration_finite (Some ti2)) as [b Hb].
  destruct (getDuration_finite ganttStartDate ganttEndDate) as [r Hr].
  rewrite Ha, Hb in Hle. rewrite Hr in Hrun.
  apply le_Fin in Hle. apply lt_Fin in Hrun.
  assert (Hnz : r <> Qc_of_Z 0) by now apply not_eq_sym, Qclt_not_eq.
  rewrite (barWidth_Fin W a r _ _ _ Ha Hr Hnz).
  rewrite (barWidth_Fin W b r _ _ _ Hb Hr Hnz).
  assert (Hmono : (W * (a / r) <= W * (b / r))%Qc).
  { rewrite (Qcmult_comm W (a / r)), (Qcmult_comm W (b / r)).
    apply Qcmult_le_compat_r; [now apply Qcdiv_le_compat | exact HW]. }
  destruct (lt (Fin (W * (a / r))%Qc) (of_Z 5)) eqn:Ea;
    destruct (lt (Fin (W * (b / r))%Qc) (of_Z 5)) eqn:Eb;
    apply le_Fin.
  - apply Qcle_refl.
  - now apply lt_Fin_false.
  - apply lt_Fin_false in Ea. apply lt_Fin in Eb.
    exfalso. apply (Qclt_not_le _ _ Eb).
    now apply Qcle_trans with (W * (a / r))%Qc.
  - exact Hmono.
Qed.

Lemma queuedDuration_finite (instance : option TaskInstance.t) :
  exists q : Qc, queuedDuration instance = Fin q.
Proof.
  unfold queuedDuration. destruct (hasValidQueuedDttm instance).
  - apply getDuration_finite.
  - unfold of_Z. eauto.
Qed.

(** The queued width under a finite width and a window of non-zero
    length: finite, and at least 5 when the queued timestamp is valid. *)
Lemma queuedBarWidth_Fin (W r : Qc) (ganttStartDate ganttEndDate
    : nullable string) (instance : option TaskInstance.t) :
  getDuration ganttStartDate ganttEndDate = Fin r ->
  r <> Qc_of_Z 0 ->
  exists q : Qc,
    queuedBarWidth (Fin W) ganttStartDate ganttEndDate instance = Fin q
    /\ (hasValidQueuedDttm instance = true -> (Qc_of_Z 5 <= q)%Qc).
Proof.
  intros Hr Hnz. unfold queuedBarWidth, percent.
  destruct (queuedDuration_finite instance) as [d Hd].
  rewrite Hd, Hr, (div_Fin _ _ Hnz).
  destruct (hasValidQueuedDttm instance); cbn [mul andb].
  - destruct (lt _ (of_Z 5)) eqn:E.
    + exists (Qc_of_Z 5). split; [reflexivity | intros _; apply Qcle_refl].
    + eexists. split; [reflexivity | intros _; now apply lt_Fin_false].
  - exists (Qc_of_Z 0). split; [reflexivity | discriminate].
Qed.

(** X9.  Under a finite width and a window whose length is not zero, no
    length of the bar is [NaN]: neither its left offset, nor the width of
    its segment, nor its total width, nor the width of its queued
    segment. *)
Theorem geometry_never_NaN
    (ganttWidth : option number) (openGroupIds : list string) (task : Task)
    (ti : TaskInstance.t) (ganttStartDate ganttEndDate : nullable string) :
  findInstance task = Some ti ->
  is_finite (defaultWidth ganttWidth) = true ->
  getDuration ganttStartDate ganttEndDate <> of_Z 0 ->
  exists bar : Tooltip,
    box_bar (box (element (Row ganttWidth openGroupIds task ganttStartDate
                               ganttEndDate))) = Some bar
    /\ flex_left (tooltip_bar bar) <> NaN
    /\ ss_width (flex_main (tooltip_bar bar)) <> NaN
    /\ flex_width (tooltip_bar bar) <> NaN
    /\ (forall queued : SimpleStatus,
          flex_queued (tooltip_bar bar) = Some queued ->
          ss_width queued <> NaN).
Proof.
  intros Hi Hfin Hrun. bar_of Hi.
  destruct (defaultWidth ganttWidth) as [W| | |]; try discriminate.
  destruct (getDuration_finite ganttStartDate ganttEndDate) as [r Hr].
  assert (Hnz : r <> Qc_of_Z 0) by (intros ->; now apply Hrun).
  destruct (taskStartOffset_finite ganttStartDate (Some ti)) as [a Ha].
  destruct (taskDuration_finite (Some ti)) as [t Ht].
  destruct (queuedBarWidth_Fin W r _ _ (Some ti) Hr Hnz) as (q & Hq & _).
  rewrite (offsetMargin_Fin W a r _ _ _ Ha Hr Hnz).
  rewrite (barWidth_Fin W t r _ _ _ Ht Hr Hnz), Hq.
  repeat match goal with |- _ /\ _ => split end.
  - discriminate.
  - now destruct (lt _ (of_Z 5)).
  - now destruct (lt _ (of_Z 5)).
  - intros queued Hqueued. destruct (showsQueued ti); [|discriminate].
    injection Hqueued as <-. discriminate.
Qed.

(** X10.  An instance in the queued state with a valid queued timestamp
    is drawn as one segment, in the queued state, yet its bar is wider
    than that segment by the queued width, which is at least 5 (finite
    width, window of non-zero length). *)
Theorem queued_state_bar_wider_than_segment
    (ganttWidth : option number) (openGroupIds : list string) (task : Task)
    (ti : TaskInstance.t) (ganttStartDate ganttEndDate : nullable string) :
  findInstance task = Some ti ->
  TaskInstance.state ti = val "queued" ->
  hasValidQueuedDttm (Some ti) = true ->
  is_finite (defaultWidth ganttWidth) = true ->
  getDuration ganttStartDate ganttEndDate <> of_Z 0 ->
  exists (bar : Tooltip) (queuedWidth : number),
    box_bar (box (element (Row ganttWidth openGroupIds task ganttStartDate
                               ganttEndDate))) = Some bar
    /\ flex_queued (tooltip_bar bar) = None
    /\ ss_state (flex_main (tooltip_bar bar)) = val "queued"
    /\ flex_width (tooltip_bar bar)
       = add (ss_width (flex_main (tooltip_bar bar))) queuedWidth
    /\ le (of_Z 5) queuedWidth = true.
Proof.
  intros Hi Hstate Hvalid Hfin Hrun.
  rewrite Row_bar, Hi. cbn [option_map].
  exists (instanceBar (defaultWidth ganttWidth) ganttStartDate ganttEndDate
                      task ti),
         (queuedBarWidth (defaultWidth ganttWidth) ganttStartDate
                         ganttEndDate (Some ti)).
  split; [reflexivity|].
  unfold instanceBar;
    cbn [tooltip_bar flex_width flex_queued flex_main ss_width ss_state].
  unfold showsQueued. rewrite Hstate. cbn [strict_eq].
  rewrite String.eqb_refl. cbn [negb andb].
  repeat split; try assumption.
  destruct (defaultWidth ganttWidth) as [W| | |]; try discriminate.
  destruct (getDuration_finite ganttStartDate ganttEndDate) as [r Hr].
  assert (Hnz : r <> Qc_of_Z 0) by (intros ->; now apply Hrun).
  destruct (queuedBarWidth_Fin W r _ _ (Some ti) Hr Hnz) as (q & Hq & H5).
  rewrite Hq. now apply le_Fin, H5.
Qed.

(** What [find] returns: the first element that passes. *)
Lemma find_first {A : Type} (f : A -> bool) (l : list A) (x : A) :
  find f l = Some x
  <-> exists before after,
        l = (before ++ x :: after)%list
        /\ f x = true
        /\ forall y, In y before -> f y = false.
Proof.
  induction l as [|a r IH]; cbn [find].
  - split; [discriminate|].
    intros (before & after & H & _). now destruct before.
  - destruct (f a) eqn:E.
    + split.
      * intros [= <-]. exists [], r. now repeat split.
      * intros ([|b before] & after & H & Hx & Hb).
        -- now injection H as -> _.
        -- injection H as -> _. rewrite (Hb b) in E; [discriminate|].
           now left.
    + rewrite IH. split.
      * intros (before & after & -> & Hx & Hb).
        exists (a :: before), after. repeat split; trivial.
        intros y [<- | Hy]; auto.
      * intros ([|b before] & after & H & Hx & Hb).
        -- injection H as -> _. congruence.
        -- injection H as -> ->. exists before, after.
           repeat split; trivial. intros y Hy. apply Hb. now right.
Qed.

(** X11.  The bar of a row is that of the first instance of the task
    whose run id is the run id of the selection; instances of that run
    further down the list are never drawn.  No such instance, no bar. *)
Theorem bar_of_first_instance_of_run
    (ganttWidth : option number) (openGroupIds : list string) (task : Task)
    (ganttStartDate ganttEndDate : nullable string) (bar : Tooltip) :
  box_bar (box (element (Row ganttWidth openGroupIds task ganttStartDate
                             ganttEndDate))) = Some bar
  <-> exists before ti after,
        instances task = (before ++ ti :: after)%list
        /\ Selection.runId selected = val (TaskInstance.runId ti)
        /\ (forall x, In x before ->
                      TaskInstance.runId x <> TaskInstance.runId ti)
        /\ bar = instanceBar (defaultWidth ganttWidth) ganttStartDate
                             ganttEndDate task ti.
Proof.
  rewrite Row_bar. unfold findInstance. split.
  - destruct (find _ _) as [ti|] eqn:E; [|discriminate].
    cbn [option_map]. intros [= <-].
    apply find_first in E. destruct E as (before & after & Hl & Hti & Hb).
    apply strict_eq_true in Hti.
    exists before, ti, after. repeat split; auto.
    intros x Hx Heq. specialize (Hb x Hx).
    rewrite <- Hti, Heq in Hb. cbn [strict_eq] in Hb.
    now rewrite String.eqb_refl in Hb.
  - intros (before & ti & after & Hl & Hrun & Hb & ->).
    replace (find _ (instances task)) with (Some ti); [reflexivity|].
    symmetry. apply find_first. exists before, after.
    split; [exact Hl|]. rewrite Hrun. cbn [strict_eq]. split.
    + apply String.eqb_refl.
    + intros y Hy. apply String.eqb_neq. now apply Hb.
Qed.

(** X12.  The border of an open group: whenever rows are drawn below a
    row its bottom border is "gray.400"; the border is "gray.400" with no
    row below exactly for an open task whose children are an empty
    array; every other row has the border "gray.200". *)
Theorem group_border_and_rows
    (ganttWidth : option number) (openGroupIds : list string) (task : Task)
    (ganttStartDate ganttEndDate : nullable string) :
  let row :=
    element (Row ganttWidth openGroupIds task ganttStartDate ganttEndDate) in
  (rows row <> [] -> box_borderBottomColor (box row) = "gray.400")
  /\ (box_borderBottomColor (box row) = "gray.400" /\ rows row = []
      <-> children task = Some []
          /\ In (or_string (id task) "") openGroupIds)
  /\ (box_borderBottomColor (box row) = "gray.400"
      \/ box_borderBottomColor (box row) = "gray.200").
Proof.
  intros row. unfold row. rewrite Row_element.
  cbn [box rows rowBox box_borderBottomColor]. unfold openChildren.
  rewrite <- isOpen_In.
  destruct (children task) as [[|c cs]|];
    destruct (isOpen openGroupIds task); cbn [andb map];
    (split;
     [ intros H; first [reflexivity | now elim H]
     | split;
       [ split; intros [H1 H2]; first [discriminate | now split]
       | auto ] ]).
Qed.

End Gantt.

(** ** The worked examples *)

Import Examples.

(** The example of the spec: a window from T0 to T0+100s drawn 500px wide,
    an instance running from T0+10s to T0+30s with no queued timestamp.
    Its segment is 100px wide and starts 50px from the left. *)
Lemma C1_spec_example :
  exists bar : Tooltip,
    box_bar (box (element (Row run1 utcMillis nothingLoaded 10
                               anHourLater isoShaped
                               (Some (of_Z 500)) [] (leaf ranTenToThirty)
                               (val T0) (val T0_100s)))) = Some bar
    /\ flex_left (tooltip_bar bar) = of_Z 50
    /\ ss_width (flex_main (tooltip_bar bar)) = of_Z 100.
Proof.
  destruct (C1_proportional_geometry run1 utcMillis nothingLoaded 10
              anHourLater isoShaped
              (Some (of_Z 500)) [] (leaf ranTenToThirty)
              ranTenToThirty T0 T0_100s T0_10s T0_30s)
    as (bar & Hbar & Hleft & Hwidth); try reflexivity.
  exists bar. split; [exact Hbar|]. split.
  - rewrite Hleft. unfold of_Z. cbn [defaultWidth mul]. f_equal.
    apply Qc_is_canon. vm_compute. reflexivity.
  - destruct Hwidth as [[Hlt _] | [_ Hw]].
    + vm_compute in Hlt. discriminate.
    + rewrite Hw. unfold of_Z. cbn [defaultWidth mul]. f_equal.
      apply Qc_is_canon. vm_compute. reflexivity.
Defined.

(** A task waiting in the queue has a queued timestamp and no start, yet
    its bar has no queued segment: the bar is the queued state itself. *)
Lemma C2_queued_state_counterexample :
  TaskInstance.queuedDttm queuedWaiting = val T0_2s
  /\ TaskInstance.startDate queuedWaiting = null
  /\ exists bar : Tooltip,
       box_bar (box (element (Row run1 utcMillis nothingLoaded 10
                                  anHourLater isoShaped None []
                                  (leaf queuedWaiting)
                                  (val T0) (val T0_100s)))) = Some bar
       /\ flex_queued (tooltip_bar bar) = None.
Proof.
  split; [reflexivity|]. split; [reflexivity|].
  eexists. split; reflexivity.
Qed.

(** An instance queued at T0+2s and started at T0+5s draws its queued
    segment; one whose state is "queued" does not. *)
Lemma C2_queued_segment_drawn :
  exists bar : Tooltip,
    box_bar (box (element (Row run1 utcMillis nothingLoaded 10
                               anHourLater isoShaped None []
                               (leaf queuedThenRan)
                               (val T0) (val T0_100s)))) = Some bar
    /\ flex_queued (tooltip_bar bar) <> None.
Proof.
  destruct (C2_queued_segment run1 utcMillis nothingLoaded 10
              anHourLater isoShaped None []
              (leaf queuedThenRan) queuedThenRan (val T0) (val T0_100s))
    as (bar & Hbar & Hiff & _); [reflexivity|].
  exists bar. split; [exact Hbar|].
  apply Hiff. split; [discriminate|].
  exists T0_2s. split; [reflexivity|]. split; [discriminate|].
  right. exists T0_5s. split; reflexivity.
Defined.

(** A window reduced to the instant T0+10s, and an instance that starts
    and ends at that instant: both the offset and the width are [NaN]. *)
Lemma C3_zero_window_counterexample :
  getDuration utcMillis (val T0_10s) (val T0_10s) = of_Z 0
  /\ exists bar : Tooltip,
       box_bar (box (element (Row run1 utcMillis nothingLoaded 10
                                  anHourLater isoShaped None []
                                  (leaf instant)
                                  (val T0_10s) (val T0_10s)))) = Some bar
       /\ flex_left (tooltip_bar bar) = NaN
       /\ ss_width (flex_main (tooltip_bar bar)) = NaN.
Proof.
  split; [reflexivity|].
  eexists. split; [reflexivity|]. split; reflexivity.
Qed.

(** The same render: the bar is there and its offset is not finite. *)
Lemma C3_zero_window_witness :
  exists bar : Tooltip,
    box_bar (box (element (Row run1 utcMillis nothingLoaded 10
                               anHourLater isoShaped None []
                               (leaf instant)
                               (val T0_10s) (val T0_10s)))) = Some bar
    /\ is_finite (flex_left (tooltip_bar bar)) = false.
Proof.
  destruct (C3_zero_window_unguarded run1 utcMillis nothingLoaded 10
              anHourLater isoShaped None []
              (leaf instant) instant (val T0_10s) (val T0_10s))
    as (bar & Hbar & Hleft & _); try reflexivity.
  exists bar. split; assumption.
Defined.

(** An instance of duration zero under the window of 100s: its computed
    width is 0, and it is drawn 5px wide. *)
Lemma C4_zero_duration_counterexample :
  taskDuration utcMillis (Some instant) = of_Z 0
  /\ mul (of_Z 500)
         (div (taskDuration utcMillis (Some instant))
              (getDuration utcMillis (val T0) (val T0_100s))) = of_Z 0
  /\ exists bar : Tooltip,
       box_bar (box (element (Row run1 utcMillis nothingLoaded 10
                                  anHourLater isoShaped None []
                                  (leaf instant)
                                  (val T0) (val T0_100s)))) = Some bar
       /\ ss_width (flex_main (tooltip_bar bar)) = of_Z 5.
Proof.
  split; [reflexivity|]. split.
  - vm_compute. reflexivity.
  - eexists. split; reflexivity.
Qed.

(** The same render: the segment is at least 5px wide. *)
Lemma C4_minimum_width_witness :
  exists bar : Tooltip,
    box_bar (box (element (Row run1 utcMillis nothingLoaded 10
                               anHourLater isoShaped None []
                               (leaf instant)
                               (val T0) (val T0_100s)))) = Some bar
    /\ le (of_Z 5) (ss_width (flex_main (tooltip_bar bar))) = true.
Proof.
  destruct (C4_minimum_width run1 utcMillis nothingLoaded 10
              anHourLater isoShaped None []
              (leaf instant) instant (val T0) (val T0_100s))
    as (bar & qw & Hbar & _ & _ & _ & _ & _ & _ & Hle); [reflexivity|].
  exists bar. split; [exact Hbar|].
  apply Hle; [reflexivity | discriminate].
Defined.

(** A task whose only instance belongs to another run, which even has
    three tries: the row is its frame. *)
Lemma C5_other_run_witness :
  exists frame : Box,
    box (element (Row run1 utcMillis failsLoaded 10
                      anHourLater isoShaped None []
                      (mkTask (val "extract") None [ofAnotherRun])
                      (val T0) (val T0_100s))) = frame
    /\ box_bar frame = None
    /\ box_fails frame = [].
Proof.
  destruct (C5_no_instance_frame_only run1 utcMillis failsLoaded 10
              anHourLater isoShaped None []
              (mkTask (val "extract") None [ofAnotherRun])
              (val T0) (val T0_100s))
    as (frame & Hrow & Hbar & Hfails & _).
  - intros ti [<- | []]. discriminate.
  - exists frame. rewrite Hrow. cbn [box]. now repeat split.
Defined.

(** Of the three entries of [earlierFails], only the try at T0+10s gets a
    marker on the row of the second try: the one at T0 is not after the
    start of the window, the one at T0+20s is the try on display. *)
Lemma C7_retried_witness :
  map marker_taskFail
      (box_fails (box (element (Row run1 utcMillis failsLoaded 10
                                    anHourLater isoShaped None []
                                    (leaf retried)
                                    (val T0) (val T0_100s)))))
  = [failAt T0_10s].
Proof.
  destruct (C7_failure_markers run1 utcMillis failsLoaded 10 anHourLater
              isoShaped None [] (leaf retried) retried (val T0)
              (val T0_100s) earlierFails)
    as (keep & _ & Hkeep & Hmap); [reflexivity | reflexivity |].
  rewrite Hmap. unfold earlierFails. cbn [filter].
  assert (Hat : forall x : string,
             x <> "" -> isoShaped x = true ->
             (keep (failAt x) = true
              <-> val x <> TaskInstance.startDate retried
                  /\ (utcMillis T0 < utcMillis x)%Z)).
  { intros x Hne Hx.
    apply (Hkeep (failAt x) x T0); try reflexivity; try assumption.
    discriminate. }
  assert (H0 : keep (failAt T0) = false).
  { destruct (keep (failAt T0)) eqn:E; [|reflexivity].
    apply Hat in E; [|discriminate | reflexivity].
    destruct E as [_ Hlt]. vm_compute in Hlt. discriminate. }
  assert (H10 : keep (failAt T0_10s) = true).
  { apply Hat; [discriminate | reflexivity |].
    split; [discriminate | reflexivity]. }
  assert (H20 : keep (failAt T0_20s) = false).
  { destruct (keep (failAt T0_20s)) eqn:E; [|reflexivity].
    apply Hat in E; [|discriminate | reflexivity].
    destruct E as [Hne _]. now elim Hne. }
  now rewrite H0, H10, H20.
Defined.

(** A failure record without a start is read as failing now, an hour
    after the start of the window: it gets a marker on the row of the
    second try, although it has no start to compare. *)
Lemma C7_missing_start_counterexample :
  TaskFail.startDate failWithoutStart = undefined
  /\ map marker_taskFail
         (box_fails (box (element (Row run1 utcMillis strayLoaded 10
                                       anHourLater isoShaped None []
                                       (leaf retried)
                                       (val T0) (val T0_100s)))))
     = [failWithoutStart].
Proof.
  split; reflexivity.
Qed.

(** A group whose id is null: null is not one of the open groups, which
    are strings, yet with the empty string among them the row of its
    child is drawn. *)
Lemma C6_null_id_counterexample :
  id anonymousGroup = null
  /\ ~ In (id anonymousGroup) (map val [""])
  /\ children anonymousGroup = Some [leaf ranTenToThirty]
  /\ length (rows (element (Row run1 utcMillis nothingLoaded 10
                                anHourLater isoShaped None [""]
                                anonymousGroup (val T0) (val T0_100s))))
     = 1%nat.
Proof.
  split; [reflexivity|]. split; [|split; reflexivity].
  intros [H | []]. discriminate.
Qed.

(** A window reduced to the instant T0: the instance that starts at T0
    has the smaller offset (0 against 10s), yet its margin, [NaN], is not
    less than or equal to the margin of the other, [Infinity]. *)
Lemma C9_zero_window_counterexample :
  lt (taskStartOffset utcMillis (val T0) (Some ranFromT0))
     (taskStartOffset utcMillis (val T0) (Some ranTenToThirty)) = true
  /\ offsetMargin utcMillis (of_Z 500) (val T0) (val T0) (Some ranFromT0)
     = NaN
  /\ offsetMargin utcMillis (of_Z 500) (val T0) (val T0)
                  (Some ranTenToThirty) = PosInf
  /\ le (offsetMargin utcMillis (of_Z 500) (val T0) (val T0)
                      (Some ranFromT0))
        (offsetMargin utcMillis (of_Z 500) (val T0) (val T0)
                      (Some ranTenToThirty)) = false.
Proof.
  repeat split; vm_compute; reflexivity.
Qed.

(** A window that ends before it starts: the margins come out in the
    reverse order of the offsets. *)
Lemma offsetMargin_reversed_window :
  lt (taskStartOffset utcMillis (val T0_100s) (Some ranFromT0))
     (taskStartOffset utcMillis (val T0_100s) (Some ranTenToThirty)) = true
  /\ lt (offsetMargin utcMillis (of_Z 500) (val T0_100s) (val T0)
                      (Some ranTenToThirty))
        (offsetMargin utcMillis (of_Z 500) (val T0_100s) (val T0)
                      (Some ranFromT0)) = true.
Proof.
  split; vm_compute; reflexivity.
Qed.

(** Under the window of 100s drawn 500px wide, the instance that starts
    at T0 is drawn to the left of the one that starts at T0+10s. *)
Lemma C9_monotone_witness :
  le (offsetMargin utcMillis (of_Z 500) (val T0) (val T0_100s)
                   (Some ranFromT0))
     (offsetMargin utcMillis (of_Z 500) (val T0) (val T0_100s)
                   (Some ranTenToThirty)) = true.
Proof.
  apply (C9_offsetMargin_monotone utcMillis (Qc_of_Z 500) (val T0)
           (val T0_100s) ranFromT0 ranTenToThirty).
  - apply Qclt_le_weak, Qc_of_Z_lt. lia.
  - vm_compute. reflexivity.
  - vm_compute. reflexivity.
Defined.

(** The second example of the spec: queued at T0+2s and started at T0+5s
    under the window of 100s drawn 500px wide, the queued segment is 15px
    wide and comes first; the bar starts 10px from the left. *)
Lemma queued_segment_15px :
  exists (bar : Tooltip) (queued : SimpleStatus),
    box_bar (box (element (Row run1 utcMillis nothingLoaded 10
                               anHourLater isoShaped None []
                               (leaf queuedThenRan)
                               (val T0) (val T0_100s)))) = Some bar
    /\ flex_queued (tooltip_bar bar) = Some queued
    /\ ss_width queued = of_Z 15
    /\ flex_left (tooltip_bar bar) = of_Z 10.
Proof.
  do 2 eexists. split; [reflexivity|]. split; [reflexivity|].
  split; vm_compute; f_equal; apply Qc_is_canon; reflexivity.
Qed.

(** A group without an id is expanded when the empty string is among the
    open groups. *)
Lemma C10_anonymous_group_witness :
  rows (element (Row run1 utcMillis nothingLoaded 10
                     anHourLater isoShaped None [""]
                     anonymousGroup (val T0) (val T0_100s)))
  = [element (Row run1 utcMillis nothingLoaded 10
                  anHourLater isoShaped (Some (of_Z 500)) [""]
                  (leaf ranTenToThirty) (val T0) (val T0_100s))].
Proof.
  destruct (C10_identifierless_group run1 utcMillis nothingLoaded 10
              anHourLater isoShaped None
              [""] anonymousGroup (val T0) (val T0_100s))
    as (_ & Hopen & _); [now left|].
  apply (Hopen [leaf ranTenToThirty]); [now left | reflexivity].
Defined.

(** ** Selecting by a click *)

(** X13.  Clicking a bar selects what highlights it: under the selection
    made of the run id and task id the click hands to [onSelect], the
    same row draws the same bar and is highlighted ("blue.100"), and any
    row is highlighted exactly when the instance it resolves for that run
    has the clicked task id. *)
Theorem click_then_highlight
    (selected : Selection.t) (millis : string -> Z)
    (taskFailsData :
       nullable string -> nullable string -> option (list TaskFail.t))
    (boxSize clock : Z) (parses : string -> bool)
    (ganttWidth : option number) (openGroupIds : list string) (task : Task)
    (ganttStartDate ganttEndDate : nullable string) (bar : Tooltip) :
  box_bar (box (element (Row selected millis taskFailsData boxSize
                             clock parses ganttWidth openGroupIds task
                             ganttStartDate
                             ganttEndDate))) = Some bar ->
  let clicked :=
    {| Selection.runId := val (fst (flex_onClick (tooltip_bar bar)));
       Selection.taskId := val (snd (flex_onClick (tooltip_bar bar))) |} in
  let again := fun t : Task =>
    box (element (Row clicked millis taskFailsData boxSize clock parses
                      ganttWidth openGroupIds t ganttStartDate
                      ganttEndDate)) in
  box_bar (again task) = Some bar
  /\ box_bg (again task) = "blue.100"
  /\ forall other : Task,
       box_bg (again other) = "blue.100"
       <-> exists ti, findInstance clicked other = Some ti
              /\ TaskInstance.taskId ti
                 = snd (flex_onClick (tooltip_bar bar)).
Proof.
  intros Hbar clicked again.
  rewrite Row_bar in Hbar.
  destruct (findInstance selected task) as [ti|] eqn:Hfind;
    [|discriminate].
  cbn [option_map] in Hbar. injection Hbar as <-.
  assert (Hrun : Selection.runId selected = val (TaskInstance.runId ti)).
  { unfold findInstance in Hfind. apply find_some in Hfind.
    symmetry. now apply strict_eq_true. }
  assert (Hsame : findInstance clicked task = Some ti).
  { unfold findInstance, clicked, instanceBar.
    cbn [Selection.runId tooltip_bar flex_onClick fst].
    rewrite <- Hrun. exact Hfind. }
  assert (Hbg : forall t,
             box_bg (again t)
             = if isSelected clicked (findInstance clicked t)
               then "blue.100" else "inherit").
  { intros t. unfold again. now rewrite Row_element. }
  split; [|split].
  - unfold again. now rewrite Row_bar, Hsame.
  - rewrite Hbg, Hsame. unfold isSelected, clicked, instanceBar.
    cbn [Selection.taskId tooltip_bar flex_onClick snd opt_field strict_eq].
    now rewrite String.eqb_refl.
  - intros other. rewrite Hbg. unfold isSelected, clicked, instanceBar.
    cbn [tooltip_bar flex_onClick snd Selection.taskId].
    destruct (findInstance _ other) as [ti'|];
      cbn [opt_field strict_eq].
    + destruct (String.eqb_spec (TaskInstance.taskId ti)
                                (TaskInstance.taskId ti')) as [E | E].
      * split; [eauto | reflexivity].
      * split; [discriminate|].
        intros (x & [= <-] & Hx). now elim E.
    + split; [discriminate | intros (x & Hx & _); discriminate].
Qed.

(** ** More worked examples *)

(** With nothing selected, the open pipeline is three frames and issues
    no request, although its tasks have retried instances. *)
Lemma no_run_selected_example :
  length (allRows (element (Row nothingSelected utcMillis failsLoaded 10
                                anHourLater isoShaped
                                None ["pipeline"] pipeline
                                (val T0) (val T0_100s)))) = 3%nat
  /\ Forall (fun row => box_bar (box row) = None
                        /\ box_fails (box row) = [])
            (allRows (element (Row nothingSelected utcMillis failsLoaded 10
                                   anHourLater isoShaped
                                   None ["pipeline"] pipeline
                                   (val T0) (val T0_100s))))
  /\ fetches (Row nothingSelected utcMillis failsLoaded 10
                  anHourLater isoShaped None
                  ["pipeline"] pipeline (val T0) (val T0_100s)) = [].
Proof.
  split; [reflexivity|].
  apply (no_run_selected_frames_only nothingSelected utcMillis failsLoaded
           10 anHourLater isoShaped None ["pipeline"] pipeline
           (val T0) (val T0_100s)).
  now left.
Defined.

(** With a run and no task selected, no row of the open pipeline is
    highlighted. *)
Lemma no_task_selected_example :
  Forall (fun row => box_bg (box row) = "inherit")
         (allRows (element (Row run1 utcMillis failsLoaded 10
                                anHourLater isoShaped None
                                ["pipeline"] pipeline
                                (val T0) (val T0_100s)))).
Proof.
  apply (no_task_selected_no_highlight run1 utcMillis failsLoaded 10
           anHourLater isoShaped None
           ["pipeline"] pipeline (val T0) (val T0_100s)).
  reflexivity.
Defined.

(** The instance waiting in the queue has no start; its left end is its
    queued timestamp, T0+2s, inside the window: the bar starts within the
    500px of the frame. *)
Lemma bar_starts_within_frame_example :
  exists bar : Tooltip,
    box_bar (box (element (Row run1 utcMillis nothingLoaded 10
                               anHourLater isoShaped None []
                               (leaf queuedWaiting)
                               (val T0) (val T0_100s)))) = Some bar
    /\ le (of_Z 0) (flex_left (tooltip_bar bar)) = true
    /\ le (flex_left (tooltip_bar bar)) (of_Z 500) = true.
Proof.
  apply (bar_starts_within_frame run1 utcMillis nothingLoaded 10
           anHourLater isoShaped None (Qc_of_Z 500) []
           (leaf queuedWaiting) queuedWaiting T0 T0_100s);
    try reflexivity.
  - apply Qc_of_Z_le. lia.
  - vm_compute. split; discriminate.
Defined.

(** The instance of the spec's example starts and ends inside the
    window: its segment is between 5px and 500px wide. *)
Lemma segment_width_bounds_example :
  exists bar : Tooltip,
    box_bar (box (element (Row run1 utcMillis nothingLoaded 10
                               anHourLater isoShaped None []
                               (leaf ranTenToThirty)
                               (val T0) (val T0_100s)))) = Some bar
    /\ le (of_Z 5) (ss_width (flex_main (tooltip_bar bar))) = true
    /\ le (ss_width (flex_main (tooltip_bar bar))) (of_Z 500) = true.
Proof.
  apply (segment_width_bounds run1 utcMillis nothingLoaded 10
           anHourLater isoShaped None
           (Qc_of_Z 500) [] (leaf ranTenToThirty) ranTenToThirty
           T0 T0_100s T0_10s T0_30s); try reflexivity.
  - apply Qc_of_Z_le. lia.
  - vm_compute. discriminate.
  - vm_compute. discriminate.
Defined.

(** The instance of no duration is drawn no wider than the one that ran
    for 20s. *)
Lemma barWidth_monotone_example :
  le (barWidth utcMillis (of_Z 500) (val T0) (val T0_100s) (Some instant))
     (barWidth utcMillis (of_Z 500) (val T0) (val T0_100s)
               (Some ranTenToThirty)) = true.
Proof.
  apply (barWidth_monotone utcMillis (Qc_of_Z 500) (val T0) (val T0_100s)
           instant ranTenToThirty).
  - apply Qc_of_Z_le. lia.
  - vm_compute. reflexivity.
  - vm_compute. reflexivity.
Defined.

(** The bar of the instance queued at T0+2s and started at T0+5s has no
    [NaN] length under the window of 100s. *)
Lemma geometry_never_NaN_example :
  exists bar : Tooltip,
    box_bar (box (element (Row run1 utcMillis nothingLoaded 10
                               anHourLater isoShaped None []
                               (leaf queuedThenRan)
                               (val T0) (val T0_100s)))) = Some bar
    /\ flex_left (tooltip_bar bar) <> NaN
    /\ flex_width (tooltip_bar bar) <> NaN.
Proof.
  destruct (geometry_never_NaN run1 utcMillis nothingLoaded 10
              anHourLater isoShaped None []
              (leaf queuedThenRan) queuedThenRan (val T0) (val T0_100s))
    as (bar & Hbar & Hleft & _ & Hwidth & _);
    [reflexivity | reflexivity | discriminate |].
  exists bar. now repeat split.
Defined.

(** The instance waiting in the queue: one segment of 5px in a bar of
    10px. *)
Lemma queued_state_bar_example :
  exists bar : Tooltip,
    box_bar (box (element (Row run1 utcMillis nothingLoaded 10
                               anHourLater isoShaped None []
                               (leaf queuedWaiting)
                               (val T0) (val T0_100s)))) = Some bar
    /\ flex_queued (tooltip_bar bar) = None
    /\ ss_width (flex_main (tooltip_bar bar)) = of_Z 5
    /\ flex_width (tooltip_bar bar) = of_Z 10.
Proof.
  destruct (queued_state_bar_wider_than_segment run1 utcMillis
              nothingLoaded 10
                  anHourLater isoShaped None [] (leaf queuedWaiting)
                  queuedWaiting
              (val T0) (val T0_100s))
    as (bar & qw & Hbar & Hnone & _ & _ & _);
    [reflexivity | reflexivity | reflexivity | reflexivity
    | discriminate |].
  exists bar. split; [exact Hbar|]. split; [exact Hnone|].
  rewrite Row_bar in Hbar. cbn [findInstance] in Hbar.
  injection Hbar as <-.
  split; vm_compute; f_equal; apply Qc_is_canon; reflexivity.
Defined.

(** Clicking the bar of the spec's example selects ("run_1", "extract"),
    under which the row is highlighted. *)
Lemma click_then_highlight_example :
  box_bg (box (element (Row {| Selection.runId := val "run_1";
                               Selection.taskId := val "extract" |}
                            utcMillis nothingLoaded 10
                                anHourLater isoShaped None []
                            (leaf ranTenToThirty)
                            (val T0) (val T0_100s)))) = "blue.100".
Proof.
  destruct (click_then_highlight run1 utcMillis nothingLoaded 10
              anHourLater isoShaped None []
              (leaf ranTenToThirty) (val T0) (val T0_100s)
              (instanceBar utcMillis (of_Z 500) (val T0) (val T0_100s)
                           (leaf ranTenToThirty) ranTenToThirty))
    as (_ & Hbg & _); [reflexivity|].
  exact Hbg.
Defined.
